(** * Streaming acquisition core of the Spectrum Instrumentation fast counter

    A shallow embedding of the acquisition / averaging core of
    [qudi/hardware/Fast_ADC/spectrum_instrumentation_ver5.py] and the
    properties its specification states about it.

    Conventions of the embedding.
    - Python integers are [Z].  A [ctypes.c_int32] is a [Z] wrapped to 32 bits.
    - A Python call that may raise returns a [Py.result]; the class of the
      exception is kept by name, as Python prints it.
    - What a method does to the outside world (lines printed, commands sent
      to the card driver) is appended, in order, to a trace of [Py.event]s.
    - What the card driver answers is an input of the model: a method that
      calls the driver takes the driver's answers as arguments.
    - An attribute that the code may read before any assignment is an
      [option]: [None] is the unset attribute and reading it raises
      [AttributeError]. *)

From Stdlib Require Import ZArith List String Bool Lia QArith DecimalString.
Import ListNotations.
Local Open Scope string_scope.
Local Open Scope list_scope.
Local Open Scope Z_scope.

(** ** Python values, exceptions and observable effects *)

Module Py.

Inductive result (A : Type) : Type :=
| Ok (a : A)
| Raise (cls : string).

Arguments Ok {A} a.
Arguments Raise {A} cls.

Definition is_ok {A} (r : result A) : bool :=
  match r with Ok _ => true | Raise _ => false end.

(** [str(z)] for an integer. *)
Definition str (z : Z) : string := NilZero.string_of_int (Z.to_int z).

Definition nl : string := String (Ascii.ascii_of_nat 10) EmptyString.

(** A value handed to the driver: a named constant of [pyspcm] or a number. *)
Inductive drv_value : Type :=
| Named (name : string)
| Num (z : Z).

Inductive event : Type :=
| Print (line : string)
| SetParam_i32 (reg : string) (value : drv_value)
| GetParam_i32 (reg : string)
| GetParam_i64 (reg : string)
| GetErrorInfo_i32.

(** [ctypes.c_int32(z).value]: no overflow check, the low 32 bits, signed. *)
Definition c_int32 (z : Z) : Z := (z + 2 ^ 31) mod 2 ^ 32 - 2 ^ 31.

(** [int(a / b)] on integers: true division, then truncation toward zero.
    Python divides in binary64; for operands below 2^53 in magnitude (any
    byte offset of a buffer) the truncated quotient is the exact one. *)
Definition int_truediv (a b : Z) : result Z :=
  if b =? 0 then Raise "ZeroDivisionError" else Ok (Z.quot a b).

(** [int((a / b) + 1)], under the same reading: [(a / b) + 1 = (a + b) / b]. *)
Definition int_truediv_succ (a b : Z) : result Z :=
  if b =? 0 then Raise "ZeroDivisionError" else Ok (Z.quot (a + b) b).

(** Effects of a method that mutates nothing: the lines it prints, in order,
    and its result. *)
Definition W (A : Type) : Type := (list event * result A)%type.

Definition ret {A} (a : A) : W A := ([], Ok a).
Definition raise {A} (cls : string) : W A := ([], Raise cls).
Definition tell (e : event) : W unit := ([e], Ok tt).
Definition lift {A} (r : result A) : W A := ([], r).

Definition bind {A B} (m : W A) (f : A -> W B) : W B :=
  match m with
  | (out, Ok a) => let (out', r) := f a in (out ++ out', r)
  | (out, Raise cls) => (out, Raise cls)
  end.

End Py.

Import Py.

Declare Scope py_scope.
Delimit Scope py_scope with py.
Notation "x <- m ;; k" := (Py.bind m (fun x => k))
  (at level 100, m at next level, right associativity) : py_scope.
Notation "m ;;; k" := (Py.bind m (fun _ => k))
  (at level 100, right associativity) : py_scope.

(** ** [CardStatus] *)

Inductive CardStatus : Type :=
| unconfigured
| idle
| running
| paused
| error.

Definition CardStatus_value (s : CardStatus) : Z :=
  match s with
  | unconfigured => 0
  | idle => 1
  | running => 2
  | paused => 3
  | error => -1
  end.

Definition CardStatus_eqb (a b : CardStatus) : bool :=
  CardStatus_value a =? CardStatus_value b.

(** ** [check_card_error] and [Card_command] *)

Module Card_command.

(** The attributes the decorated methods use.  [_error_check] is the class
    attribute of the classes that inherit the commands
    ([Data_process_command], [SpectrumInstrumentation]: [False]). *)
Record t : Type := mk {
  _card : Z;
  _error : Z;
  _error_check : bool;
  out : list event
}.

Definition emit (es : list event) (self : t) : t :=
  mk (_card self) (_error self) (_error_check self) (out self ++ es).

Definition set_error (e : Z) (self : t) : t :=
  mk (_card self) e (_error_check self) (out self).

(** What [inspect] tells the wrapper about its caller, and the text the
    driver writes into [szErrorTextBuffer]. *)
Record frame : Type := {
  f_lineno : Z;
  co_name : string;
  module : string;
  error_text : string
}.

Definition error_line (fr : frame) (error : Z) : string :=
  ("line " ++ str (f_lineno fr) ++ " Error " ++ str error ++ " at "
   ++ co_name fr ++ " " ++ module fr ++ " ")%string.

Definition no_error_line (fr : frame) : string :=
  ("line " ++ str (f_lineno fr) ++ " no error at " ++ co_name fr)%string.

(** What the decorator does once [func] has returned: nothing when
    [_error_check] is off; otherwise it prints, the driver's error text too
    when [self._error] is not 0. *)
Definition report (fr : frame) (self : t) : t :=
  if _error_check self then
    let error := _error self in
    if negb (error =? 0) then
      emit [Print (error_line fr error); GetErrorInfo_i32;
            Print (error_text fr ++ nl)%string] self
    else
      emit [Print (no_error_line fr)] self
  else self.

(** The decorator: [value = func(self, ...)], the report, [return value]. *)
Definition check_card_error {A} (fr : frame) (func : t -> t * result A)
    (self : t) : t * result A :=
  match func self with
  | (self1, Raise cls) => (self1, Raise cls)
  | (self1, Ok value) => (report fr self1, Ok value)
  end.

(** [self._error = spcm_dwSetParam_i32(self._card, SPC_M2CMD, cmd)], the
    driver answering [drv_err]. *)
Definition m2cmd (cmd : string) (drv_err : Z) (self : t) : t :=
  set_error drv_err (emit [SetParam_i32 "SPC_M2CMD" (Named cmd)] self).

Definition enable_trigger_body (drv_err : Z) (self : t) : t * result bool :=
  let self1 := m2cmd "M2CMD_CARD_ENABLETRIGGER" drv_err self in
  let trigger_enabled := true in
  (self1, Ok trigger_enabled).

Definition disable_trigger_body (drv_err : Z) (self : t) : t * result bool :=
  let self1 := m2cmd "M2CMD_CARD_DISABLETRIGGER" drv_err self in
  let trigger_enabled := false in
  (self1, Ok trigger_enabled).

Definition enable_trigger (fr : frame) (drv_err : Z) : t -> t * result bool :=
  check_card_error fr (enable_trigger_body drv_err).

Definition disable_trigger (fr : frame) (drv_err : Z) : t -> t * result bool :=
  check_card_error fr (disable_trigger_body drv_err).

(** The commands that return nothing ([None], here [tt]). *)
Definition command (cmd : string) (fr : frame) (drv_err : Z)
  : t -> t * result unit :=
  check_card_error fr (fun self => (m2cmd cmd drv_err self, Ok tt)).

Definition card_start := command "M2CMD_CARD_START".
Definition card_stop := command "M2CMD_CARD_STOP".
Definition card_reset := command "M2CMD_CARD_RESET".
Definition start_dma := command "M2CMD_DATA_STARTDMA".
Definition stop_dma := command "M2CMD_DATA_STOPDMA".
Definition wait_DMA := command "M2CMD_CARD_WAITREADY".

End Card_command.

(** ** [Data_transfer]: typed reads from the DMA ring buffer *)

Module Data_transfer.

Section Samples.

(** The values of [data_type]. *)
Variable T : Type.

(** [c_buf_ptr] is the host memory at and after the buffer's address: the
    [data_type] value stored at a byte offset from it ([ctypes] checks no
    bound).  [data_type] is kept by its size in bytes, the stride of the
    array [np.ctypeslib.as_array] builds. *)
Record t : Type := mk {
  c_buf_ptr : Z -> T;
  data_type : Z;
  data_bytes_B : Z;
  seq_size_S : Z;
  seq_size_B : Z;
  reps_per_buf : Z
}.

Definition __init__ (c_buf_ptr : Z -> T)
    (data_type data_bytes_B seq_size_S reps_per_buf : Z) : t :=
  mk c_buf_ptr data_type data_bytes_B seq_size_S
     (seq_size_S * data_bytes_B) reps_per_buf.

(** A pointer into the buffer is its byte offset. *)
Definition _cast_buf_ptr (self : t) (user_pos_B : Z) : Z := user_pos_B.

(** [n] values of [data_type] from the pointer on. *)
Definition view (self : t) (c_buffer : Z) (shape : Z) : list T :=
  map (fun i => c_buf_ptr self (c_buffer + Z.of_nat i * data_type self))
      (seq 0 (Z.to_nat shape)).

(** [np.ctypeslib.as_array(c_buffer, shape=(n,))]: a negative length is
    refused. *)
Definition _asnparray (self : t) (c_buffer : Z) (shape : Z) : W (list T) :=
  if shape <? 0 then raise "ValueError" else ret (view self c_buffer shape).

(** [def _fetch_from_buf(self, user_pos_B, sample_S, data_type)]: three
    required positional parameters.  The last one is an [option] here:
    [None] is a call that does not pass it, which Python refuses with
    [TypeError] before the body runs. *)
Definition _fetch_from_buf (self : t) (user_pos_B sample_S : Z)
    (data_type : option Z) : W (list T) :=
  match data_type with
  | None => raise "TypeError"
  | Some _ =>
      let shape := sample_S in
      let c_buffer := _cast_buf_ptr self user_pos_B in
      _asnparray self c_buffer shape
  end.

(** [self._fetch_from_buf(user_pos_B, curr_avail_reps * self.seq_size_S)]:
    the call passes two of the three arguments. *)
Definition _fetch_data (self : t) (user_pos_B curr_avail_reps : Z)
  : W (list T) :=
  _fetch_from_buf self user_pos_B (curr_avail_reps * seq_size_S self) None.

(** The two methods below call [self._fetch_data], a lookup on the object;
    their bodies are written over the method found, [fetch]. *)
Definition _fetch_data_buf_end_via (fetch : Z -> Z -> W (list T)) (self : t)
    (user_pos_B curr_avail_reps : Z) : W (list T) :=
  (start_rep <- lift (int_truediv_succ user_pos_B (seq_size_B self));;
   let reps_tail := reps_per_buf self - (start_rep - 1) in
   let reps_head := curr_avail_reps - reps_tail in
   np_data_tail <- fetch user_pos_B reps_tail;;
   np_data_head <- fetch 0 reps_head;;
   ret (np_data_tail ++ np_data_head))%py.

Definition out_of_range_line (rep_end : Z) : string :=
  ("error: rep_end " ++ str rep_end ++ " is out of range")%string.

(** [np_data] is bound in the first two branches only: after the message of
    the last branch, [return np_data] raises [UnboundLocalError]. *)
Definition get_new_data_via (fetch : Z -> Z -> W (list T)) (self : t)
    (curr_avail_reps user_pos_B : Z) : W (list T) :=
  (q <- lift (int_truediv user_pos_B (seq_size_B self));;
   let rep_end := q + curr_avail_reps in
   if (0 <? rep_end) && (rep_end <=? reps_per_buf self) then
     fetch user_pos_B curr_avail_reps
   else if (reps_per_buf self <? rep_end) && (rep_end <? 2 * reps_per_buf self) then
     _fetch_data_buf_end_via fetch self user_pos_B curr_avail_reps
   else
     (tell (Print (out_of_range_line rep_end));;;
      raise "UnboundLocalError"))%py.

Definition _fetch_data_buf_end (self : t) : Z -> Z -> W (list T) :=
  _fetch_data_buf_end_via (_fetch_data self) self.

Definition get_new_data (self : t) : Z -> Z -> W (list T) :=
  get_new_data_via (_fetch_data self) self.

(** The read [_fetch_from_buf] performs when it is given its [data_type]:
    the method a caller that passes all three arguments reaches. *)
Definition _fetch_data_typed (self : t) (user_pos_B curr_avail_reps : Z)
  : W (list T) :=
  _fetch_from_buf self user_pos_B (curr_avail_reps * seq_size_S self)
                  (Some (data_type self)).

(** [rep_end] as [get_new_data] computes it, for a segment size that is not 0. *)
Definition rep_end (self : t) (curr_avail_reps user_pos_B : Z) : Z :=
  Z.quot user_pos_B (seq_size_B self) + curr_avail_reps.

End Samples.

Arguments mk {T}.
Arguments c_buf_ptr {T}.
Arguments data_type {T}.
Arguments data_bytes_B {T}.
Arguments seq_size_S {T}.
Arguments seq_size_B {T}.
Arguments reps_per_buf {T}.
Arguments __init__ {T}.
Arguments view {T}.
Arguments _fetch_from_buf {T}.
Arguments _fetch_data {T}.
Arguments _fetch_data_typed {T}.
Arguments _fetch_data_buf_end_via {T}.
Arguments _fetch_data_buf_end {T}.
Arguments get_new_data_via {T}.
Arguments get_new_data {T}.
Arguments rep_end {T}.

(** The buffer of the specification's scenario: 4 repetitions of 100 samples
    of 2 bytes; the sample stored at byte offset [b] is the number [b / 2]. *)
Definition scenario : t Z := __init__ (fun b => b / 2) 2 2 100 4.

End Data_transfer.

(** ** [Data_process_command]: status queries and the release of bytes *)

Module Data_process_command.

(** [base] holds what [Card_command] and the decorator use, the trace of the
    driver calls included. *)
Record t : Type := mk {
  base : Card_command.t;
  avail_user_pos_B : Z;
  processed_data_B : Z;
  avg_num : Z
}.

Definition with_base (b : Card_command.t) (self : t) : t :=
  mk b (avail_user_pos_B self) (processed_data_B self) (avg_num self).

(** [init_dp_params], for the attributes kept here. *)
Definition init_dp_params (self : t) : t :=
  mk (base self) (avail_user_pos_B self) 0 0.

(** [get_avail_user_pos_B], decorated: the driver answers the error code
    [drv_err] and writes [pos] into [c_avaiil_user_pos]. *)
Definition get_avail_user_pos_B (fr : Card_command.frame) (drv_err pos : Z)
    (self : t) : t * result Z :=
  let b := Card_command.set_error drv_err
             (Card_command.emit [GetParam_i64 "SPC_DATA_AVAIL_USER_POS"]
                                (base self)) in
  (mk (Card_command.report fr b) pos (processed_data_B self) (avg_num self),
   Ok pos).

(** [set_avail_card_len_B], not decorated: the length goes to the driver as a
    [c_int32]; the counter adds the length as it was given. *)
Definition set_avail_card_len_B (avail_card_len_B : Z) (self : t) : t :=
  let c_avaiil_card_len_B := c_int32 avail_card_len_B in
  let b := Card_command.emit
             [SetParam_i32 "SPC_DATA_AVAIL_CARD_LEN" (Num c_avaiil_card_len_B)]
             (Card_command.set_error c_avaiil_card_len_B (base self)) in
  mk b (avail_user_pos_B self) (processed_data_B self + avail_card_len_B)
     (avg_num self).

(** The length an event releases to the driver, if it is a release. *)
Definition release_of (e : event) : list Z :=
  match e with
  | SetParam_i32 reg (Num v) =>
      if String.eqb reg "SPC_DATA_AVAIL_CARD_LEN" then [v] else []
  | _ => []
  end.

(** The lengths released to the driver, in order, read off a trace. *)
Definition released (es : list event) : list Z := flat_map release_of es.

Arguments released : simpl never.

End Data_process_command.

(** ** [Data_fetch_ungated]: one fetch and its release *)

Module Data_fetch_ungated.

Section Fetch.

Variable T : Type.

(** [self.hw_dt.get_new_data]: the data transfer object the fetcher holds. *)
Variable hw_dt_get_new_data : Z -> Z -> W (list T).

(** [dpcmd] is the fetcher's [Data_process_command], with the counters
    [init_dp_params] sets. *)
Record t : Type := mk {
  seq_size_S : Z;
  data_bytes_B : Z;
  seq_size_B : Z;
  dpcmd : Data_process_command.t
}.

(** [input_params], for the sizes: [seq_size_B = seq_size_S * data_bytes_B]. *)
Definition input_params (seq_size_S data_bytes_B : Z)
    (dpcmd : Data_process_command.t) : t :=
  mk seq_size_S data_bytes_B (seq_size_S * data_bytes_B) dpcmd.

Definition with_dpcmd (d : Data_process_command.t) (self : t) : t :=
  mk (seq_size_S self) (data_bytes_B self) (seq_size_B self) d.

(** The data class [dc] the fetch writes into: [dc.data] and [dc.rep]. *)
Record SeqData : Type := mkdc {
  data : option (list T);
  rep : option Z
}.

(** The lines [get_new_data] prints go to the one trace of the process. *)
Definition say (es : list event) (self : t) : t :=
  with_dpcmd (Data_process_command.with_base
                (Card_command.emit es (Data_process_command.base (dpcmd self)))
                (dpcmd self)) self.

(** [fetch_data_to_dc]; the driver answers [(drv_err, user_pos)] to the
    position query.  An exception of [get_new_data] leaves the method before
    [dc] is written and before the release. *)
Definition fetch_data_to_dc (fr : Card_command.frame) (drv_err user_pos : Z)
    (curr_avail_reps : Z) (self : t) (dc : SeqData)
  : t * SeqData * result (list T) :=
  match Data_process_command.get_avail_user_pos_B fr drv_err user_pos (dpcmd self) with
  | (d1, Raise cls) => (with_dpcmd d1 self, dc, Raise cls)
  | (d1, Ok user_pos_B) =>
      let self1 := with_dpcmd d1 self in
      match hw_dt_get_new_data curr_avail_reps user_pos_B with
      | (printed, Raise cls) => (say printed self1, dc, Raise cls)
      | (printed, Ok np_data) =>
          let self2 := say printed self1 in
          let dc1 := mkdc (Some np_data) (rep dc) in
          let d3 := Data_process_command.set_avail_card_len_B
                      (curr_avail_reps * seq_size_B self2) (dpcmd self2) in
          let dc2 := mkdc (data dc1) (Some curr_avail_reps) in
          (with_dpcmd d3 self2, dc2, Ok np_data)
      end
  end.

(** One fetch request of a run: what the driver answers to the position
    query and how many repetitions are asked for. *)
Record request : Type := {
  req_frame : Card_command.frame;
  req_err : Z;
  req_pos : Z;
  req_reps : Z
}.

(** A run: calls of [fetch_data_to_dc] one after the other, each on the
    objects the call before left, whether that call returned or raised.  The
    result keeps the repetition counts of the calls that returned. *)
Fixpoint run (reqs : list request) (self : t) (dc : SeqData)
  : t * SeqData * list Z :=
  match reqs with
  | [] => (self, dc, [])
  | r :: reqs' =>
      match fetch_data_to_dc (req_frame r) (req_err r) (req_pos r) (req_reps r) self dc with
      | (self1, dc1, Raise _) => run reqs' self1 dc1
      | (self1, dc1, Ok _) =>
          let '(self2, dc2, done) := run reqs' self1 dc1 in
          (self2, dc2, req_reps r :: done)
      end
  end.

Definition trace (self : t) : list event :=
  Card_command.out (Data_process_command.base (dpcmd self)).

Definition processed (self : t) : Z :=
  Data_process_command.processed_data_B (dpcmd self).

(** The bytes of the fetches that returned: [k * seq_size_B] each. *)
Definition fetched_B (self : t) (done : list Z) : list Z :=
  map (fun k => k * seq_size_B self) done.

Definition total (l : list Z) : Z := fold_right Z.add 0 l.

(** A length that a [c_int32] holds. *)
Definition fits_int32 (b : Z) : Prop := - 2 ^ 31 <= b < 2 ^ 31.

End Fetch.

Arguments mkdc {T}.
Arguments data {T}.
Arguments rep {T}.

(** A fetcher for the buffer of the scenario, after [init_dp_params], and a
    run of two fetches on it: 2 repetitions at the start of the buffer, then
    3 repetitions from repetition 3 on, across the buffer end. *)
Definition scenario_frame : Card_command.frame :=
  {| Card_command.f_lineno := 896;
     Card_command.co_name := "fetch_data_to_dc";
     Card_command.module := "spectrum_instrumentation_ver5.py";
     Card_command.error_text := "" |}.

Definition scenario_fetcher : t :=
  input_params 100 2
    (Data_process_command.init_dp_params
       (Data_process_command.mk (Card_command.mk 0 0 false []) 0 0 0)).

Definition scenario_requests : list request :=
  [ {| req_frame := scenario_frame; req_err := 0; req_pos := 0; req_reps := 2 |};
    {| req_frame := scenario_frame; req_err := 0; req_pos := 600; req_reps := 3 |} ].

(** Segments of 2^21 bytes: a fetch of 1024 of them is a release of 2^31
    bytes. *)
Definition large_fetcher : t :=
  input_params (2 ^ 20) 2
    (Data_process_command.init_dp_params
       (Data_process_command.mk (Card_command.mk 0 0 false []) 0 0 0)).

End Data_fetch_ungated.

(** ** [Card_process] and [Data_process_commander]: the decision of one loop body *)

Module Data_process_commander.

(** The attributes [command_process] and [_toggle_trigger] read and write.
    [trig_counter] is read on the loop object itself, where no method assigns
    it ([get_trig_counter] assigns the attribute of [self.dp]): it is unset,
    [None], on every object the code builds.  [trigger_enabled] is assigned
    from outside, by the controller ([self.dp.trigger_enabled = ...]), and by
    [_toggle_trigger]: unset until then.  The three flags are unset until
    the first decision.  [avg_num] is [self.avg.num], [reps_per_buf] is
    [self.ms.reps_per_buf], [dp] is the [Data_process_command] whose trigger
    commands [_toggle_trigger] calls. *)
Record t : Type := mk {
  trig_counter : option Z;
  avg_num : Z;
  reps_per_buf : Z;
  trigger_on : option bool;
  wait_trigger_on : option bool;
  data_process_on : option bool;
  trigger_enabled : option bool;
  dp : Card_command.t
}.

Definition decide (line : string) (trigger wait process : bool) (self : t) : t :=
  mk (trig_counter self) (avg_num self) (reps_per_buf self)
     (Some trigger) (Some wait) (Some process) (trigger_enabled self)
     (Card_command.emit [Print line] (dp self)).

Definition set_trigger (dp' : Card_command.t) (enabled : option bool)
    (self : t) : t :=
  mk (trig_counter self) (avg_num self) (reps_per_buf self)
     (trigger_on self) (wait_trigger_on self) (data_process_on self)
     enabled dp'.

(** [Card_process._toggle_trigger]: the driver is called only when the wanted
    state differs from [trigger_enabled], which then takes the value the
    command returns. *)
Definition _toggle_trigger (fr : Card_command.frame) (drv_err : Z)
    (trigger_on : bool) (self : t) : t * result unit :=
  match trigger_enabled self with
  | None => (self, Raise "AttributeError")
  | Some enabled =>
      if Bool.eqb trigger_on enabled then (self, Ok tt)
      else if trigger_on then
        match Card_command.enable_trigger fr drv_err (dp self) with
        | (dp', Ok v) => (set_trigger dp' (Some v) self, Ok tt)
        | (dp', Raise cls) => (set_trigger dp' (trigger_enabled self) self, Raise cls)
        end
      else
        match Card_command.disable_trigger fr drv_err (dp self) with
        | (dp', Ok v) => (set_trigger dp' (Some v) self, Ok tt)
        | (dp', Raise cls) => (set_trigger dp' (trigger_enabled self) self, Raise cls)
        end
  end.

(** [unprocessed_reps = self.trig_counter - self.avg.num], for a counter that
    is set. *)
Definition unprocessed_reps (trig_counter : Z) (self : t) : Z :=
  trig_counter - avg_num self.

(** The three branches of [command_process]. *)
Definition decision (trig_counter : Z) (self : t) : t :=
  let unprocessed_reps := unprocessed_reps trig_counter self in
  if unprocessed_reps =? 0 then
    decide "wait new trigger" true true false self
  else if unprocessed_reps <? 2 * reps_per_buf self then
    decide "process data with trigger on" true false true self
  else if unprocessed_reps >=? 2 * reps_per_buf self then
    decide "process data with trigger off" false false true self
  else self.

(** [command_process]: the read of [self.trig_counter], the decision,
    [_toggle_trigger(self.trigger_on)], then
    [self._process_data_with_trigger_off()], a method that no class of the
    object defines: the call ends in [AttributeError], after the decision and
    the toggle have taken effect. *)
Definition command_process (fr : Card_command.frame) (drv_err : Z) (self : t)
  : t * result unit :=
  match trig_counter self with
  | None => (self, Raise "AttributeError")
  | Some counter =>
      let self1 := decision counter self in
      match trigger_on self1 with
      | None => (self1, Raise "AttributeError")
      | Some wanted =>
          match _toggle_trigger fr drv_err wanted self1 with
          | (self2, Raise cls) => (self2, Raise cls)
          | (self2, Ok _) => (self2, Raise "AttributeError")
          end
      end
  end.

(** The loop object as [init_process] leaves it, for a buffer of 4
    repetitions: no [trig_counter], no [trigger_enabled]. *)
Definition built_state : t :=
  mk None 0 4 None None None None (Card_command.mk 0 0 false []).

(** The same object with the two attributes assigned from outside: 10
    triggers counted and 2 repetitions averaged, a backlog of 8, the trigger
    enabled. *)
Definition backlog_state : t :=
  mk (Some 10) 2 4 None None None (Some true) (Card_command.mk 0 0 false []).

Definition scenario_frame : Card_command.frame :=
  {| Card_command.f_lineno := 974;
     Card_command.co_name := "_toggle_trigger";
     Card_command.module := "spectrum_instrumentation_ver5.py";
     Card_command.error_text := "" |}.

End Data_process_commander.

(** ** [Data_process_loop]: the snapshot read of the average *)

Module Data_process_loop.

Section Trace.

(** What [avg_data] holds: any Python object. *)
Variable A : Type.

(** [avg_data] and [avg_num] are unset until something assigns them; no
    method of the loop object's classes does (the average is kept in
    [self.avg]). *)
Record t : Type := mk {
  loop_on : bool;
  fetch_on : bool;
  avg_data : option A;
  avg_num : option Z
}.

Definition set_fetch_on (b : bool) (self : t) : t :=
  mk (loop_on self) b (avg_data self) (avg_num self).

(** [fetch_data_trace]: raise the flag, read the two attributes, lower the
    flag, return the pair.  A read of an unset attribute leaves the method
    with the flag still raised. *)
Definition fetch_data_trace (self : t) : t * result (A * Z) :=
  let self1 := set_fetch_on true self in
  match avg_data self1 with
  | None => (self1, Raise "AttributeError")
  | Some d =>
      match avg_num self1 with
      | None => (self1, Raise "AttributeError")
      | Some n => (set_fetch_on false self1, Ok (d, n))
      end
  end.

End Trace.

Arguments mk {A}.
Arguments loop_on {A}.
Arguments fetch_on {A}.
Arguments avg_data {A}.
Arguments avg_num {A}.
Arguments fetch_data_trace {A}.

(** The loop object before any repetition has been processed, as
    [on_activate] and [init_process] leave it: nothing has assigned
    [avg_data] or [avg_num]. *)
Definition built_state : t (list Z) := mk false false None None.

End Data_process_loop.

(** ** [SpectrumInstrumentation]: the status the controller reports *)

Module SpectrumInstrumentation.

(** The thread object [data_proc_th] of the data process loop. *)
Inductive thread : Type :=
| Started
| Joined.

(** [cc] holds the [Card_command] attributes of the controller, present
    once [_card] is assigned.  No method of the class assigns it: [__init__]
    sets [_card_on] and [_internal_status], and [on_activate] keeps the
    handle in [self.cs.card].  On the controller as the code builds it [cc]
    is [None], and a command of [Card_command] raises [AttributeError] at
    [self._card], before the driver is called.
    [dp_loop_on], [dp_trigger_enabled] and [dp_data_proc_th] are the
    attributes of [self.dp] the methods below write; the thread attribute is
    unset until [start_data_process] has run.  [log] is [self.log.info]. *)
Record t : Type := mk {
  cc : option Card_command.t;
  _internal_status : CardStatus;
  dp_loop_on : bool;
  dp_trigger_enabled : bool;
  dp_data_proc_th : option thread;
  log : list string
}.

(** [__init__]: the card is not on, the status is [idle]. *)
Definition __init__ : t := mk None idle false false None [].

Definition get_status (self : t) : CardStatus := _internal_status self.

Definition set_status (st : CardStatus) (self : t) : t :=
  mk (cc self) st (dp_loop_on self) (dp_trigger_enabled self)
     (dp_data_proc_th self) (log self).

Definition set_loop_on (b : bool) (self : t) : t :=
  mk (cc self) (_internal_status self) b (dp_trigger_enabled self)
     (dp_data_proc_th self) (log self).

Definition set_trigger_enabled (b : bool) (self : t) : t :=
  mk (cc self) (_internal_status self) (dp_loop_on self) b
     (dp_data_proc_th self) (log self).

Definition set_thread (th : option thread) (self : t) : t :=
  mk (cc self) (_internal_status self) (dp_loop_on self)
     (dp_trigger_enabled self) th (log self).

Definition set_cc (c : option Card_command.t) (self : t) : t :=
  mk c (_internal_status self) (dp_loop_on self) (dp_trigger_enabled self)
     (dp_data_proc_th self) (log self).

Definition info (line : string) (self : t) : t :=
  mk (cc self) (_internal_status self) (dp_loop_on self)
     (dp_trigger_enabled self) (dp_data_proc_th self) (log self ++ [line]).

(** A decorated command of [Card_command] run on the controller. *)
Definition card {A} (c : Card_command.t -> Card_command.t * result A)
    (self : t) : t * result A :=
  match cc self with
  | None => (self, Raise "AttributeError")
  | Some c0 => let (c', r) := c c0 in (set_cc (Some c') self, r)
  end.

(** [dp.stop_data_process]: lower [loop_on], join the thread. *)
Definition stop_data_process (self : t) : t * result unit :=
  let self1 := set_loop_on false self in
  match dp_data_proc_th self1 with
  | None => (self1, Raise "AttributeError")
  | Some _ => (set_thread (Some Joined) self1, Ok tt)
  end.

(** [dp.start_data_process]: a new thread, started. *)
Definition start_data_process (self : t) : t :=
  set_thread (Some Started) self.

(** The driver's answers to the commands of one method. *)
Record answers : Type := {
  fr : Card_command.frame;
  err1 : Z;
  err2 : Z;
  err3 : Z
}.

Definition then_ {A B} (m : t * result A) (k : t -> A -> t * result B)
  : t * result B :=
  match m with
  | (self1, Ok a) => k self1 a
  | (self1, Raise cls) => (self1, Raise cls)
  end.

(** [stop_measure]: the card is stopped only when the status is [running];
    the status becomes [idle] whatever it was. *)
Definition stop_measure (a : answers) (self : t) : t * result Z :=
  let finish (s : t) : t * result Z :=
    let s1 := set_status idle s in
    let s2 := set_loop_on false s1 in
    (info "Measurement stopped" s2, Ok 0) in
  if CardStatus_eqb (_internal_status self) running then
    let self1 := info "card stopped" self in
    then_ (stop_data_process self1) (fun s _ =>
    then_ (card (Card_command.disable_trigger (fr a) (err1 a)) s) (fun s _ =>
    then_ (card (Card_command.stop_dma (fr a) (err2 a)) s) (fun s _ =>
    then_ (card (Card_command.card_stop (fr a) (err3 a)) s) (fun s _ =>
    finish s))))
  else finish self.

(** [pause_measure]: no test of the status. *)
Definition pause_measure (a : answers) (self : t) : t * result unit :=
  then_ (card (Card_command.disable_trigger (fr a) (err1 a)) self) (fun s _ =>
  let s1 := set_loop_on false s in
  then_ (stop_data_process s1) (fun s2 _ =>
  let s3 := set_status paused s2 in
  (info "Measurement paused" s3, Ok tt))).

(** [continue_measure]: no test of the status. *)
Definition continue_measure (a : answers) (self : t) : t * result Z :=
  let self1 := info "Measurement continued" self in
  let self2 := set_status running self1 in
  let self3 := set_loop_on true self2 in
  then_ (card (Card_command.enable_trigger (fr a) (err1 a)) self3) (fun s v =>
  let s1 := set_trigger_enabled v s in
  (start_data_process s1, Ok 0)).

(** The public operations of the claim on the status. *)
Inductive operation : Type :=
| Stop
| Pause
| Continue.

Definition perform (op : operation) (a : answers) (self : t) : t :=
  match op with
  | Stop => fst (stop_measure a self)
  | Pause => fst (pause_measure a self)
  | Continue => fst (continue_measure a self)
  end.

(** The status an operation leaves when it returns. *)
Definition target (op : operation) : CardStatus :=
  match op with
  | Stop => idle
  | Pause => paused
  | Continue => running
  end.

(** A controller whose status is [error], and driver answers without error. *)
Definition error_state : t := set_status error __init__.

Definition no_error : answers :=
  {| fr := {| Card_command.f_lineno := 460;
              Card_command.co_name := "stop_measure";
              Card_command.module := "spectrum_instrumentation_ver5.py";
              Card_command.error_text := "" |};
     err1 := 0; err2 := 0; err3 := 0 |}.

End SpectrumInstrumentation.

(** ** The averaging engine *)

Module Averaging.

Local Open Scope Q_scope.

(** Modelled from the spec: the [CumulativeAverage] of section 3, sample
    values and repetition count; the class that holds them in the code
    ([AvgData] of [qudi.hardware.Fast_ADC.si_dataclass]) is not in the
    sources. *)
Record CumulativeAverage : Type := mk {
  sample_values : list Q;
  repetition_count : Z
}.

(** Modelled from the spec: the weighted mean of one sample, section 4.4,
    [(current * n + new * m) / (n + m)]; the classes [AvgData] and
    [SeqDataMulti] of [qudi.hardware.Fast_ADC.si_dataclass] and the method
    [_weighted_avg_data] that the sources call are not among them.  Sample
    values are rationals: the formula without rounding. *)
Definition weighted (n m : Z) (cur new : Q) : Q :=
  (cur * inject_Z n + new * inject_Z m) / inject_Z (n + m).

(** Modelled from the spec: [combine(current, new_samples, new_rep_count)] of
    section 4.4, whose code ([AvgData.update], [_weighted_avg_data]) is not
    in the sources: the first batch seeds the average, a later one is merged
    sample by sample. *)
Definition combine (current : CumulativeAverage) (new_samples : list Q)
    (new_rep_count : Z) : CumulativeAverage :=
  let n := repetition_count current in
  if (n =? 0)%Z then mk new_samples new_rep_count
  else mk (map (fun p => weighted n new_rep_count (fst p) (snd p))
               (List.combine (sample_values current) new_samples))
          (n + new_rep_count)%Z.

(** Modelled from the spec: the incremental form section 4.4 prefers,
    [mean += (batch_mean - mean) * new_rep_count / total_count]. *)
Definition incremental (n m : Z) (mean batch_mean : Q) : Q :=
  mean + (batch_mean - mean) * inject_Z m / inject_Z (n + m).

(** The scenario of the specification: a current mean [1, 2] over 10
    repetitions and a new batch of mean [3, 4] over 5. *)
Definition scenario_current : CumulativeAverage := mk [1; 2] 10.
Definition scenario_new : list Q := [3; 4].

End Averaging.

(** ** [Configure_acquistion_mode], [Configure_trigger] and the analog input *)

Module Configure_command.

(** The object is used through the attributes of [Card_command.t]; the
    methods receive the card handle as a parameter. *)
Definition write (reg : string) (v : drv_value) (self : Card_command.t)
  : Card_command.t :=
  Card_command.emit [SetParam_i32 reg v] self.

(** [self._error = spcm_dwSetParam_i32(card, reg, v)], the driver answering
    [drv_err]. *)
Definition write_error (reg : string) (v : drv_value) (drv_err : Z)
    (self : Card_command.t) : Card_command.t :=
  Card_command.set_error drv_err (write reg v self).

Definition _mode_STD_SINGLE (fr : Card_command.frame) (drv_err : Z)
    (card post_trigs_S seg_size_S : Z)
  : Card_command.t -> Card_command.t * result unit :=
  Card_command.check_card_error fr (fun self =>
    let s1 := write "SPC_CARDMODE" (Named "SPC_REC_STD_SINGLE") self in
    let s2 := write "SPC_MEMSIZE" (Num seg_size_S) s1 in
    (write_error "SPC_POSTTRIGGER" (Num post_trigs_S) drv_err s2, Ok tt)).

Definition _mode_STD_MULTI (fr : Card_command.frame) (drv_err : Z)
    (card post_trigs_S seg_size_S loops : Z)
  : Card_command.t -> Card_command.t * result unit :=
  Card_command.check_card_error fr (fun self =>
    let s1 := write "SPC_CARDMODE" (Named "SPC_REC_STD_MULTI") self in
    let s2 := write "SPC_SEGMENTSIZE" (Num seg_size_S) s1 in
    let s3 := write "SPC_MEMSIZE" (Num (seg_size_S * loops)) s2 in
    (write_error "SPC_POSTTRIGGER" (Num post_trigs_S) drv_err s3, Ok tt)).

Definition _mode_FIFO_SINGLE (fr : Card_command.frame) (drv_err : Z)
    (card pre_trigs_S seg_size_S loops : Z)
  : Card_command.t -> Card_command.t * result unit :=
  Card_command.check_card_error fr (fun self =>
    let s1 := write "SPC_CARDMODE" (Named "SPC_REC_FIFO_SINGLE") self in
    let s2 := write "SPC_PRETRIGGER" (Num pre_trigs_S) s1 in
    let s3 := write "SPC_SEGMENTSIZE" (Num seg_size_S) s2 in
    (write_error "SPC_LOOPS" (Num loops) drv_err s3, Ok tt)).

Definition _mode_FIFO_GATE (fr : Card_command.frame) (drv_err : Z)
    (card pre_trigs_S post_trigs_S loops : Z)
  : Card_command.t -> Card_command.t * result unit :=
  Card_command.check_card_error fr (fun self =>
    let s1 := write "SPC_CARDMODE" (Named "SPC_REC_FIFO_GATE") self in
    let s2 := write "SPC_PRETRIGGER" (Num pre_trigs_S) s1 in
    let s3 := write "SPC_POSTTRIGGER" (Num post_trigs_S) s2 in
    (write_error "SPC_LOOPS" (Num loops) drv_err s3, Ok tt)).

Definition _mode_FIFO_MULTI (fr : Card_command.frame) (drv_err : Z)
    (card post_trigs_S seg_size_S loops : Z)
  : Card_command.t -> Card_command.t * result unit :=
  Card_command.check_card_error fr (fun self =>
    let s1 := write "SPC_CARDMODE" (Named "SPC_REC_FIFO_MULTI") self in
    let s2 := write "SPC_SEGMENTSIZE" (Num seg_size_S) s1 in
    let s3 := write "SPC_POSTTRIGGER" (Num post_trigs_S) s2 in
    (write_error "SPC_LOOPS" (Num loops) drv_err s3, Ok tt)).

(** [def _mode_FIFO_AVERAGE(self, card, post_trigs_S, seg_size_S, loops=0)]:
    at most four arguments after [self]; [more] holds the positional
    arguments a call passes beyond them, which Python refuses with
    [TypeError].  The body writes the card mode and then reads the name
    [HW_avg_num], bound nowhere: [NameError]. *)
Definition _mode_FIFO_AVERAGE (fr : Card_command.frame) (drv_err : Z)
    (card post_trigs_S seg_size_S loops : Z) (more : list Z)
  : Card_command.t -> Card_command.t * result unit :=
  Card_command.check_card_error fr (fun self =>
    match more with
    | _ :: _ => (self, Raise "TypeError")
    | [] =>
        let s1 := write "SPC_CARDMODE" (Named "SPC_REC_FIFO_AVERAGE") self in
        (s1, Raise "NameError")
    end).

(** [set_acquistion_mode]: an [if]/[elif] chain on the mode, with no [else]. *)
Definition set_acquistion_mode (fr : Card_command.frame) (drv_err : Z)
    (card : Z) (acq_mode : string)
    (pre_trigs_S post_trigs_S seg_size_S loops HW_avg_num : Z)
    (self : Card_command.t) : Card_command.t * result unit :=
  if String.eqb acq_mode "STD_SINGLE" then
    _mode_STD_SINGLE fr drv_err card post_trigs_S seg_size_S self
  else if String.eqb acq_mode "STD_MULTI" then
    _mode_STD_MULTI fr drv_err card post_trigs_S seg_size_S loops self
  else if String.eqb acq_mode "FIFO_SINGLE" then
    _mode_FIFO_SINGLE fr drv_err card pre_trigs_S seg_size_S loops self
  else if String.eqb acq_mode "FIFO_GATE" then
    _mode_FIFO_GATE fr drv_err card pre_trigs_S post_trigs_S loops self
  else if String.eqb acq_mode "FIFO_MULTI" then
    _mode_FIFO_MULTI fr drv_err card post_trigs_S seg_size_S loops self
  else if String.eqb acq_mode "FIFO_AVERAGE" then
    _mode_FIFO_AVERAGE fr drv_err card post_trigs_S seg_size_S loops
                       [HW_avg_num] self
  else (self, Ok tt).

(** The values written to a register, in order, read off a trace. *)
Definition written (reg : string) (es : list event) : list drv_value :=
  flat_map (fun e => match e with
                     | SetParam_i32 r v => if String.eqb r reg then [v] else []
                     | _ => []
                     end) es.

Arguments written : simpl never.

(** The modes [set_acquistion_mode] configures. *)
Definition configurable_modes : list string :=
  ["STD_SINGLE"; "STD_MULTI"; "FIFO_SINGLE"; "FIFO_GATE"; "FIFO_MULTI"].

Definition _trigger_EXT (fr : Card_command.frame) (drv_err : Z)
    (card trig_level_mV : Z)
  : Card_command.t -> Card_command.t * result unit :=
  Card_command.check_card_error fr (fun self =>
    let s1 := write "SPC_TRIG_EXT0_MODE" (Named "SPC_TM_POS") self in
    let s2 := write "SPC_TRIG_EXT0_LEVEL0" (Num trig_level_mV) s1 in
    let s3 := write "SPC_TRIG_ORMASK" (Named "SPC_TMASK_EXT0") s2 in
    (write_error "SPC_TRIG_ANDMASK" (Num 0) drv_err s3, Ok tt)).

Definition _trigger_SW (fr : Card_command.frame) (drv_err : Z) (card : Z)
  : Card_command.t -> Card_command.t * result unit :=
  Card_command.check_card_error fr (fun self =>
    let s1 := write "SPC_TRIG_ORMASK" (Named "SPC_TMASK_SOFTWARE") self in
    (write_error "SPC_TRIG_ANDMASK" (Num 0) drv_err s1, Ok tt)).

Definition _trigger_CH0 (fr : Card_command.frame) (drv_err : Z)
    (card trig_level_mV : Z)
  : Card_command.t -> Card_command.t * result unit :=
  Card_command.check_card_error fr (fun self =>
    let s1 := write "SPC_TRIG_ORMASK" (Named "SPC_TMASK_NONE") self in
    let s2 := write "SPC_TRIG_CH_ANDMASK0" (Named "SPC_TMASK0_CH0") s1 in
    let s3 := write "SPC_TRIG_CH0_LEVEL0" (Num trig_level_mV) s2 in
    (write_error "SPC_TRIG_CH0_MODE" (Named "SPC_TM_POS") drv_err s3, Ok tt)).

Definition set_trigger (fr : Card_command.frame) (drv_err : Z)
    (card : Z) (trig_mode : string) (trig_level_mV : Z)
    (self : Card_command.t) : Card_command.t * result unit :=
  if String.eqb trig_mode "EXT" then _trigger_EXT fr drv_err card trig_level_mV self
  else if String.eqb trig_mode "SW" then _trigger_SW fr drv_err card self
  else if String.eqb trig_mode "CH0" then _trigger_CH0 fr drv_err card trig_level_mV self
  else (self, Ok tt).

(** [d[k]] on a dictionary written as its items. *)
Fixpoint getitem {K V : Type} (eqb : K -> K -> bool) (d : list (K * V)) (k : K)
  : result V :=
  match d with
  | [] => Raise "KeyError"
  | (k', v) :: d' => if eqb k' k then Ok v else getitem eqb d' k
  end.

Definition ai_term_dict : list (string * Z) := [("1Mohm", 0); ("50Ohm", 1)].
Definition ai_coupling_dict : list (string * Z) := [("DC", 0); ("AC", 1)].

(** The analog input attributes of the configuration. *)
Record analog_input : Type := {
  _ai_range_mV : Z;
  _ai_offset_mV : Z;
  _ai_term : string;
  _ai_coupling : string
}.

(** [set_analog_input_conditions]: six writes; the arguments of a call are
    evaluated before the call, so a key that is in neither dictionary raises
    before the write it was meant for. *)
Definition set_analog_input_conditions (fr : Card_command.frame) (drv_err : Z)
    (card : Z) (ai : analog_input)
  : Card_command.t -> Card_command.t * result unit :=
  Card_command.check_card_error fr (fun self =>
    let s1 := write "SPC_TIMEOUT" (Num 5000) self in
    let s2 := write "SPC_CHENABLE" (Named "CHANNEL0") s1 in
    let s3 := write "SPC_AMP0" (Num (_ai_range_mV ai)) s2 in
    let s4 := write "SPC_OFFS0" (Num (_ai_offset_mV ai)) s3 in
    match getitem String.eqb ai_term_dict (_ai_term ai) with
    | Raise cls => (s4, Raise cls)
    | Ok term =>
        let s5 := write "SPC_50OHM0" (Num term) s4 in
        match getitem String.eqb ai_coupling_dict (_ai_coupling ai) with
        | Raise cls => (s5, Raise cls)
        | Ok coupling =>
            (write_error "SPC_ACDC0" (Num coupling) drv_err s5, Ok tt)
        end
    end).

(** A configuration and a card for the examples. *)
Definition scenario_frame : Card_command.frame :=
  {| Card_command.f_lineno := 710;
     Card_command.co_name := "configure_all";
     Card_command.module := "spectrum_instrumentation_ver5.py";
     Card_command.error_text := "" |}.

Definition scenario_ai : analog_input :=
  {| _ai_range_mV := 2000; _ai_offset_mV := 0;
     _ai_term := "50Ohm"; _ai_coupling := "DC" |}.

Definition scenario_card : Card_command.t := Card_command.mk 0 0 false [].

End Configure_command.

(** ** [Configure_register_checker]: reading the analog input back *)

Module Configure_register_checker.

Definition ai_term_dict : list (Z * string) := [(0, "1Mohm"); (1, "50Ohm")].
Definition ai_coupling_dict : list (Z * string) := [(0, "DC"); (1, "AC")].

(** The attributes of [self.csr] that [_check_csr_ai] assigns; unset before. *)
Record csr : Type := mkcsr {
  ai_range_mV : option Z;
  ai_offset_mV : option Z;
  ai_term : option string;
  ai_coupling : option string
}.

Definition empty_csr : csr := mkcsr None None None None.

(** What the driver writes into the four [c_int32] of [_check_csr_ai], and
    the error code of the last query. *)
Record ai_registers : Type := {
  c_ai_range_mV : Z;
  c_ai_offset_mV : Z;
  c_ai_term : Z;
  c_ai_coupling : Z;
  ai_err : Z
}.

Definition read (reg : string) (self : Card_command.t) : Card_command.t :=
  Card_command.emit [GetParam_i32 reg] self.

(** [_check_csr_ai], decorated, on the object and its [csr]: four queries,
    then four assignments, the last two through the dictionaries. *)
Definition _check_csr_ai (fr : Card_command.frame) (regs : ai_registers)
    (self : Card_command.t) (c : csr) : Card_command.t * csr * result unit :=
  let s1 := read "SPC_AMP0" self in
  let s2 := read "SPC_OFFS0" s1 in
  let s3 := read "SPC_50OHM0" s2 in
  let s4 := Card_command.set_error (ai_err regs) (read "SPC_ACDC0" s3) in
  let c1 := mkcsr (Some (c_ai_range_mV regs)) (ai_offset_mV c) (ai_term c)
                  (ai_coupling c) in
  let c2 := mkcsr (ai_range_mV c1) (Some (c_ai_offset_mV regs)) (ai_term c1)
                  (ai_coupling c1) in
  match Configure_command.getitem Z.eqb ai_term_dict (c_ai_term regs) with
  | Raise cls => (s4, c2, Raise cls)
  | Ok term =>
      let c3 := mkcsr (ai_range_mV c2) (ai_offset_mV c2) (Some term)
                      (ai_coupling c2) in
      match Configure_command.getitem Z.eqb ai_coupling_dict (c_ai_coupling regs) with
      | Raise cls => (s4, c3, Raise cls)
      | Ok coupling =>
          (Card_command.report fr s4,
           mkcsr (ai_range_mV c3) (ai_offset_mV c3) (ai_term c3) (Some coupling),
           Ok tt)
      end
  end.

(** The number last written to a register, read off a trace. *)
Definition last_number (reg : string) (es : list event) : option Z :=
  match rev (Configure_command.written reg es) with
  | Num z :: _ => Some z
  | _ => None
  end.

(** A card that holds what was written to it: what it answers to the four
    queries after the trace [es]. *)
Definition read_back (es : list event) (err : Z) : option ai_registers :=
  match last_number "SPC_AMP0" es, last_number "SPC_OFFS0" es,
        last_number "SPC_50OHM0" es, last_number "SPC_ACDC0" es with
  | Some r, Some o, Some t, Some c =>
      Some {| c_ai_range_mV := r; c_ai_offset_mV := o; c_ai_term := t;
              c_ai_coupling := c; ai_err := err |}
  | _, _, _, _ => None
  end.

(** The answers of a card configured with [Configure_command.scenario_ai],
    and the checker's object, whose [_error_check] is on. *)
Definition scenario_frame : Card_command.frame :=
  {| Card_command.f_lineno := 758;
     Card_command.co_name := "check_cs_registers";
     Card_command.module := "spectrum_instrumentation_ver5.py";
     Card_command.error_text := "" |}.

Definition scenario_registers : ai_registers :=
  {| c_ai_range_mV := 2000; c_ai_offset_mV := 0; c_ai_term := 1;
     c_ai_coupling := 0; ai_err := 0 |}.

Definition scenario_checker : Card_command.t := Card_command.mk 0 0 true [].

End Configure_register_checker.

(** ** [Configure_data_transfer]: the page-aligned buffer *)

Module Configure_data_transfer.

(** [pvAllocMemPageAligned]; [address] is where the allocator put the
    non-aligned buffer.  A [ctypes] array of negative length is refused, and
    so is a [from_buffer] that does not fit its source.  The result is the
    address and the length of the array returned. *)
Definition pvAllocMemPageAligned (address : Z) (qwBytes : Z) : result (Z * Z) :=
  let dwAlignment := 4096 in
  let dwMask := dwAlignment - 1 in
  let qwRequiredNonAlignedBytes := qwBytes * 1 + dwMask in
  if qwRequiredNonAlignedBytes <? 0 then Raise "ValueError"
  else
    let misalignment := Z.land address dwMask in
    let dwOffset :=
      if negb (misalignment =? 0) then dwAlignment - misalignment else 0 in
    if qwBytes <? 0 then Raise "ValueError"
    else if qwRequiredNonAlignedBytes <? dwOffset + qwBytes then Raise "ValueError"
    else Ok (address + dwOffset, qwBytes).

End Configure_data_transfer.

(** ** [Card_process]: waiting for triggers and for data *)

Module Card_process.

(** The attributes of the [Data_process_command] the waits poll.
    [seq_size_B] is assigned by no method of the class: unset unless the
    owner assigned it.  [trig_counter] holds a number, or the placeholder
    ['-----'] that [init_dp_params] stores ([None]). *)
Record t : Type := mk {
  base : Card_command.t;
  seq_size_B : option Z;
  avail_user_len_B : Z;
  avail_user_reps : Z;
  trig_counter : option Z
}.

Definition init_dp_params (self : t) : t :=
  mk (base self) (seq_size_B self) (avail_user_len_B self)
     (avail_user_reps self) None.

(** One answer of the driver to a query: the error code and the value. *)
Record answer : Type := {
  a_frame : Card_command.frame;
  a_err : Z;
  a_value : Z
}.

Definition query (reg : string) (a : answer) (self : t) : Card_command.t :=
  Card_command.report (a_frame a)
    (Card_command.set_error (a_err a)
       (Card_command.emit [GetParam_i64 reg] (base self))).

(** [get_trig_counter], decorated. *)
Definition get_trig_counter (a : answer) (self : t) : t * Z :=
  (mk (query "SPC_TRIGGERCOUNTER" a self) (seq_size_B self)
      (avail_user_len_B self) (avail_user_reps self) (Some (a_value a)),
   a_value a).

(** [get_avail_user_len_B], decorated. *)
Definition get_avail_user_len_B (a : answer) (self : t) : t * Z :=
  (mk (query "SPC_DATA_AVAIL_USER_LEN" a self) (seq_size_B self)
      (a_value a) (avail_user_reps self) (trig_counter self),
   a_value a).

(** [int(np.floor(len / seq_size_B))]: the floor of the quotient (in
    binary64, exact for operands below 2^53). *)
Definition get_avail_user_reps (a : answer) (self : t) : t * result Z :=
  let (self1, len) := get_avail_user_len_B a self in
  match seq_size_B self1 with
  | None => (self1, Raise "AttributeError")
  | Some b =>
      if b =? 0 then (self1, Raise "ZeroDivisionError")
      else
        let reps := len / b in
        (mk (base self1) (seq_size_B self1) (avail_user_len_B self1) reps
            (trig_counter self1), Ok reps)
  end.

Definition say (line : string) (self : t) : t :=
  mk (Card_command.emit [Print line] (base self)) (seq_size_B self)
     (avail_user_len_B self) (avail_user_reps self) (trig_counter self).

(** A wait polls the driver until an answer ends it.  The answers to come
    are a list; [Waiting] is a wait that has used them all and polls on. *)
Inductive waited (A : Type) : Type :=
| Returned (r : result A)
| Waiting.

Arguments Returned {A} r.
Arguments Waiting {A}.

(** [while curr_trig_counts == prev_trig_counts: curr = get_trig_counter()] *)
Fixpoint poll_trig_counter (prev : option Z) (curr : Z)
    (answers : list answer) (self : t) : t * waited Z :=
  match prev with
  | Some p =>
      if curr =? p then
        match answers with
        | [] => (self, Waiting)
        | a :: answers' =>
            let (self1, c) := get_trig_counter a self in
            poll_trig_counter prev c answers' self1
        end
      else (self, Returned (Ok curr))
  | None => (self, Returned (Ok curr))
  end.

(** [_wait_new_trigger]: [None] when [wait_trig_on] is not [True]. *)
Definition _wait_new_trigger (wait_trig_on : bool) (answers : list answer)
    (self : t) : t * waited (option Z) :=
  if wait_trig_on then
    let self1 := say "waiting for triggers" self in
    let prev_trig_counts := trig_counter self1 in
    match answers with
    | [] => (self1, Waiting)
    | a :: answers' =>
        let (self2, curr) := get_trig_counter a self1 in
        match poll_trig_counter prev_trig_counts curr answers' self2 with
        | (self3, Returned (Ok c)) =>
            (say ("got_new_triggs " ++ str c)%string self3, Returned (Ok (Some c)))
        | (self3, Returned (Raise cls)) => (self3, Returned (Raise cls))
        | (self3, Waiting) => (self3, Waiting)
        end
    end
  else (self, Returned (Ok None)).

(** [_wait_new_avail_reps]: poll until the count is not 0. *)
Fixpoint _wait_new_avail_reps (answers : list answer) (self : t)
  : t * waited Z :=
  match answers with
  | [] => (self, Waiting)
  | a :: answers' =>
      match get_avail_user_reps a self with
      | (self1, Raise cls) => (self1, Returned (Raise cls))
      | (self1, Ok curr_avail_reps) =>
          if curr_avail_reps =? 0 then _wait_new_avail_reps answers' self1
          else (self1, Returned (Ok curr_avail_reps))
      end
  end.

(** The queries of a register in a trace. *)
Definition polls (reg : string) (es : list event) : nat :=
  List.length (filter (fun e => match e with
                                | GetParam_i64 r => String.eqb r reg
                                | _ => false
                                end) es).

(** A state with a segment of 200 bytes and five triggers counted, and the
    driver answering a query with [v]. *)
Definition scenario_frame : Card_command.frame :=
  {| Card_command.f_lineno := 980;
     Card_command.co_name := "_wait_new_trigger";
     Card_command.module := "spectrum_instrumentation_ver5.py";
     Card_command.error_text := "" |}.

Definition scenario_answer (v : Z) : answer :=
  {| a_frame := scenario_frame; a_err := 0; a_value := v |}.

Definition scenario_state : t :=
  mk (Card_command.mk 0 0 false []) (Some 200) 0 0 (Some 5).

End Card_process.

(** * Properties *)

(** ** The trigger commands and the decorator *)

Section CardCommandFacts.

Import Card_command.

Variable fr : frame.

Lemma report_out (self : t) :
  out (report fr self) =
  out self ++
  (if _error_check self then
     if negb (_error self =? 0) then
       [Print (error_line fr (_error self)); GetErrorInfo_i32;
        Print (error_text fr ++ nl)%string]
     else [Print (no_error_line fr)]
   else []).
Proof.
  unfold report.
  destruct (_error_check self); [destruct (negb (_error self =? 0))|];
    simpl; now rewrite ?app_nil_r.
Qed.

Lemma report_fields (self : t) :
  _card (report fr self) = _card self /\
  _error (report fr self) = _error self /\
  _error_check (report fr self) = _error_check self.
Proof.
  unfold report.
  destruct (_error_check self) eqn:E; [destruct (negb (_error self =? 0))|];
    simpl; auto.
Qed.

Lemma check_card_error_value {A} (func : t -> t * result A) (self : t) :
  snd (check_card_error fr func self) = snd (func self).
Proof.
  unfold check_card_error. destruct (func self) as [self1 [v|c]]; reflexivity.
Qed.

Lemma check_card_error_state {A} (func : t -> t * result A) (self : t) :
  fst (check_card_error fr func self) =
  if is_ok (snd (func self)) then report fr (fst (func self)) else fst (func self).
Proof.
  unfold check_card_error. destruct (func self) as [self1 [v|c]]; reflexivity.
Qed.

End CardCommandFacts.

(** C10.  Whatever error code the driver answers, whatever the object and
    whether error checking is on or off, [enable_trigger] returns [True] and
    [disable_trigger] returns [False]; neither raises.  The decorator hands
    back the value and the outcome of the method it wraps, for every method;
    after [enable_trigger] the object differs from the undecorated call only
    by the trace, which received the trigger command and then, when checking
    is on, the lines of the report. *)
Theorem trigger_commands_return_constants :
  forall (fr : Card_command.frame) (drv_err : Z) (self : Card_command.t),
    snd (Card_command.enable_trigger fr drv_err self) = Ok true /\
    snd (Card_command.disable_trigger fr drv_err self) = Ok false /\
    (forall (A : Type) (func : Card_command.t -> Card_command.t * result A),
        snd (Card_command.check_card_error fr func self) = snd (func self)) /\
    Card_command._error (fst (Card_command.enable_trigger fr drv_err self)) = drv_err /\
    Card_command.out (fst (Card_command.enable_trigger fr drv_err self)) =
      Card_command.out self
      ++ [SetParam_i32 "SPC_M2CMD" (Named "M2CMD_CARD_ENABLETRIGGER")]
      ++ (if Card_command._error_check self then
            if negb (drv_err =? 0) then
              [Print (Card_command.error_line fr drv_err); GetErrorInfo_i32;
               Print (Card_command.error_text fr ++ nl)%string]
            else [Print (Card_command.no_error_line fr)]
          else []).
Proof.
  intros fr drv_err self.
  repeat split.
  - intros A func. apply check_card_error_value.
  - unfold Card_command.enable_trigger, Card_command.check_card_error; simpl.
    now destruct (report_fields fr
                    (Card_command.m2cmd "M2CMD_CARD_ENABLETRIGGER" drv_err self))
      as (_ & -> & _).
  - unfold Card_command.enable_trigger, Card_command.check_card_error; simpl.
    rewrite report_out; simpl. now rewrite <- app_assoc.
Qed.

(** ** Reads from the ring buffer *)

Lemma bind_lift_ok {A B} (a : A) (f : A -> W B) :
  Py.bind (lift (Ok a)) f = f a.
Proof. unfold Py.bind, lift. now destruct (f a). Qed.

Lemma bind_ok {A B} (a : A) (f : A -> W B) :
  Py.bind ([], Ok a) f = f a.
Proof. exact (bind_lift_ok a f). Qed.

Section DataTransferFacts.

Import Data_transfer.

Variable T : Type.
Variable self : t T.
Hypothesis seq_size_B_not_0 : seq_size_B self <> 0.

(** The three branches of [get_new_data], over [rep_end]. *)
Lemma get_new_data_via_branches (fetch : Z -> Z -> W (list T)) (k pos : Z) :
  get_new_data_via fetch self k pos =
  if (0 <? rep_end self k pos) && (rep_end self k pos <=? reps_per_buf self)
  then fetch pos k
  else if (reps_per_buf self <? rep_end self k pos)
          && (rep_end self k pos <? 2 * reps_per_buf self)
  then _fetch_data_buf_end_via fetch self pos k
  else ([Print (out_of_range_line (rep_end self k pos))],
        Raise "UnboundLocalError").
Proof.
  unfold get_new_data_via, int_truediv, rep_end.
  destruct (Z.eqb_spec (seq_size_B self) 0) as [E|_]; [contradiction|].
  rewrite bind_lift_ok.
  destruct ((0 <? _) && (_ <=? _)); [reflexivity|].
  destruct ((_ <? _) && (_ <? _)); reflexivity.
Qed.

Lemma get_new_data_via_contiguous (fetch : Z -> Z -> W (list T)) (k pos : Z) :
  0 < rep_end self k pos <= reps_per_buf self ->
  get_new_data_via fetch self k pos = fetch pos k.
Proof.
  intros [H1 H2]. rewrite get_new_data_via_branches.
  apply Z.ltb_lt in H1. apply Z.leb_le in H2. now rewrite H1, H2.
Qed.

Lemma get_new_data_via_out_of_range (fetch : Z -> Z -> W (list T)) (k pos : Z) :
  rep_end self k pos <= 0 \/ 2 * reps_per_buf self <= rep_end self k pos ->
  get_new_data_via fetch self k pos =
  ([Print (out_of_range_line (rep_end self k pos))], Raise "UnboundLocalError").
Proof.
  intros H. rewrite get_new_data_via_branches.
  destruct (Z.ltb_spec 0 (rep_end self k pos));
    destruct (Z.leb_spec (rep_end self k pos) (reps_per_buf self));
    destruct (Z.ltb_spec (reps_per_buf self) (rep_end self k pos));
    destruct (Z.ltb_spec (rep_end self k pos) (2 * reps_per_buf self));
    simpl; try reflexivity; lia.
Qed.

Lemma get_new_data_via_wraparound (fetch : Z -> Z -> W (list T)) (k pos : Z) :
  reps_per_buf self < rep_end self k pos < 2 * reps_per_buf self ->
  get_new_data_via fetch self k pos = _fetch_data_buf_end_via fetch self pos k.
Proof.
  intros [H1 H2]. rewrite get_new_data_via_branches.
  destruct (Z.ltb_spec 0 (rep_end self k pos));
    destruct (Z.leb_spec (rep_end self k pos) (reps_per_buf self));
    destruct (Z.ltb_spec (reps_per_buf self) (rep_end self k pos));
    destruct (Z.ltb_spec (rep_end self k pos) (2 * reps_per_buf self));
    simpl; try reflexivity; lia.
Qed.

(** Every call of [_fetch_data] stops at the call it makes. *)
Lemma _fetch_data_raises (pos k : Z) :
  _fetch_data self pos k = ([], Raise "TypeError").
Proof. reflexivity. Qed.

(** Given its [data_type], [_fetch_from_buf] returns [k * seq_size_S] values
    from the cursor on. *)
Lemma _fetch_data_typed_view (pos k : Z) :
  0 <= k * seq_size_S self ->
  _fetch_data_typed self pos k = ([], Ok (view self pos (k * seq_size_S self))).
Proof.
  intros H. unfold _fetch_data_typed, _fetch_from_buf, _asnparray, _cast_buf_ptr.
  destruct (Z.ltb_spec (k * seq_size_S self) 0); [lia|reflexivity].
Qed.

End DataTransferFacts.

Section WraparoundFacts.

Import Data_transfer.

Variable T : Type.
Variable self : t T.

(** For a cursor inside the memory and a positive segment size,
    [start_rep - 1] is the repetition the cursor is in. *)
Lemma start_rep_quot (pos : Z) :
  0 < seq_size_B self -> 0 <= pos ->
  int_truediv_succ pos (seq_size_B self) = Ok (Z.quot pos (seq_size_B self) + 1).
Proof.
  intros HB Hp. unfold int_truediv_succ.
  destruct (Z.eqb_spec (seq_size_B self) 0); [lia|].
  rewrite !Z.quot_div_nonneg by lia.
  replace (pos + seq_size_B self) with (pos + 1 * seq_size_B self) by lia.
  now rewrite Z.div_add by lia.
Qed.

(** The split of [_fetch_data_buf_end] over a method that reads: the tail
    from the cursor, then the head from offset 0. *)
Lemma _fetch_data_buf_end_via_typed (k pos : Z) :
  0 < seq_size_B self -> 0 <= pos -> 0 <= seq_size_S self ->
  Z.quot pos (seq_size_B self) <= reps_per_buf self ->
  reps_per_buf self <= rep_end self k pos ->
  _fetch_data_buf_end_via (_fetch_data_typed self) self pos k =
  ([], Ok (view self pos
             ((reps_per_buf self - Z.quot pos (seq_size_B self)) * seq_size_S self)
           ++ view self 0
             ((k - (reps_per_buf self - Z.quot pos (seq_size_B self)))
              * seq_size_S self))).
Proof.
  intros HB Hp HS Hq Hre. unfold rep_end in Hre.
  unfold _fetch_data_buf_end_via.
  rewrite start_rep_quot by assumption. rewrite bind_lift_ok. cbv zeta.
  replace (reps_per_buf self - (Z.quot pos (seq_size_B self) + 1 - 1))
    with (reps_per_buf self - Z.quot pos (seq_size_B self)) by lia.
  rewrite _fetch_data_typed_view by nia. rewrite bind_ok.
  rewrite _fetch_data_typed_view by nia. rewrite bind_ok.
  reflexivity.
Qed.

End WraparoundFacts.

(** C1.  On the buffer of the scenario (4 repetitions of 100 samples, the
    cursor at repetition 3, 3 repetitions available) [rep_end] is 6, inside
    the wraparound range, and the fetch returns no samples: it raises
    [TypeError] at the first read, [_fetch_data] calling [_fetch_from_buf]
    without its third argument. *)
Theorem wraparound_fetch_scenario_raises :
  Data_transfer.rep_end Data_transfer.scenario 3 600 = 6 /\
  Data_transfer.reps_per_buf Data_transfer.scenario < 6
    < 2 * Data_transfer.reps_per_buf Data_transfer.scenario /\
  Data_transfer.get_new_data Data_transfer.scenario 3 600 = ([], Raise "TypeError").
Proof. repeat split. Qed.

(** The wraparound fetch over a method that reads ([_fetch_from_buf] given
    its [data_type]): the tail of [reps_per_buf - user_pos_B / seq_size_B]
    repetitions from the cursor, followed by the head of the remaining
    repetitions from byte offset 0. *)
Theorem wraparound_fetch_typed_tail_then_head :
  forall (T : Type) (self : Data_transfer.t T) (k pos : Z),
    0 < Data_transfer.seq_size_B self -> 0 <= pos ->
    0 <= Data_transfer.seq_size_S self ->
    Z.quot pos (Data_transfer.seq_size_B self) <= Data_transfer.reps_per_buf self ->
    Data_transfer.reps_per_buf self < Data_transfer.rep_end self k pos
      < 2 * Data_transfer.reps_per_buf self ->
    Data_transfer.get_new_data_via (Data_transfer._fetch_data_typed self) self k pos =
    ([], Ok (Data_transfer.view self pos
               ((Data_transfer.reps_per_buf self
                 - Z.quot pos (Data_transfer.seq_size_B self))
                * Data_transfer.seq_size_S self)
             ++ Data_transfer.view self 0
               ((k - (Data_transfer.reps_per_buf self
                      - Z.quot pos (Data_transfer.seq_size_B self)))
                * Data_transfer.seq_size_S self))).
Proof.
  intros T self k pos HB Hp HS Hq Hre.
  rewrite get_new_data_via_wraparound by (assumption || lia).
  apply _fetch_data_buf_end_via_typed; (assumption || lia).
Qed.

(** The scenario over a method that reads: the 100 samples of repetition 3,
    then the 200 samples of repetitions 0 and 1. *)
Lemma wraparound_fetch_typed_scenario :
  Data_transfer.get_new_data_via
    (Data_transfer._fetch_data_typed Data_transfer.scenario)
    Data_transfer.scenario 3 600 =
  ([], Ok (map Z.of_nat (seq 300 100) ++ map Z.of_nat (seq 0 200))).
Proof.
  rewrite (wraparound_fetch_typed_tail_then_head Z Data_transfer.scenario 3 600)
    by (vm_compute; intuition congruence).
  vm_compute. reflexivity.
Defined.

(** C7, the claim at [rep_end = 0].  With the cursor at byte 0 and no
    repetition available [rep_end] is 0, not above [reps_per_buf], and the
    fetch is no read: it prints the out-of-range line and raises, also over a
    method that reads, while the contiguous read of 0 samples at offset 0 is
    the empty sequence. *)
Lemma contiguous_fetch_fails_at_rep_end_0 :
  Data_transfer.rep_end Data_transfer.scenario 0 0 = 0 /\
  0 <= Data_transfer.reps_per_buf Data_transfer.scenario /\
  Data_transfer.get_new_data Data_transfer.scenario 0 0 =
    ([Print "error: rep_end 0 is out of range"], Raise "UnboundLocalError") /\
  Data_transfer.get_new_data_via
    (Data_transfer._fetch_data_typed Data_transfer.scenario)
    Data_transfer.scenario 0 0 =
    ([Print "error: rep_end 0 is out of range"], Raise "UnboundLocalError") /\
  Data_transfer._fetch_data_typed Data_transfer.scenario 0 0 = ([], Ok []).
Proof. repeat split; discriminate. Qed.

(** C7, amended.  For a segment size that is not 0 and [rep_end] not above
    [reps_per_buf]: when [rep_end] is positive the fetch is the single call
    [_fetch_data(user_pos_B, curr_avail_reps)], a request for
    [curr_avail_reps * seq_size_S] samples at byte offset [user_pos_B], and
    nothing else, for any method [_fetch_data] the object has; when [rep_end]
    is 0 or less there is no read, only the out-of-range line and the
    exception. *)
Theorem contiguous_fetch_for_positive_rep_end :
  forall (T : Type) (self : Data_transfer.t T) (k pos : Z),
    Data_transfer.seq_size_B self <> 0 ->
    Data_transfer.rep_end self k pos <= Data_transfer.reps_per_buf self ->
    (forall fetch : Z -> Z -> W (list T),
        Data_transfer.get_new_data_via fetch self k pos =
        if 0 <? Data_transfer.rep_end self k pos then fetch pos k
        else ([Print (Data_transfer.out_of_range_line
                        (Data_transfer.rep_end self k pos))],
              Raise "UnboundLocalError")) /\
    Data_transfer.get_new_data self k pos =
      (if 0 <? Data_transfer.rep_end self k pos
       then Data_transfer._fetch_from_buf self pos
              (k * Data_transfer.seq_size_S self) None
       else ([Print (Data_transfer.out_of_range_line
                       (Data_transfer.rep_end self k pos))],
             Raise "UnboundLocalError")).
Proof.
  intros T self k pos HB Hre.
  assert (G : forall fetch : Z -> Z -> W (list T),
             Data_transfer.get_new_data_via fetch self k pos =
             if 0 <? Data_transfer.rep_end self k pos then fetch pos k
             else ([Print (Data_transfer.out_of_range_line
                             (Data_transfer.rep_end self k pos))],
                   Raise "UnboundLocalError")).
  { intros fetch. destruct (Z.ltb_spec 0 (Data_transfer.rep_end self k pos)).
    - apply get_new_data_via_contiguous; [assumption|lia].
    - apply get_new_data_via_out_of_range; [assumption|lia]. }
  split; [exact G|]. exact (G (Data_transfer._fetch_data self)).
Qed.

(** With 2 repetitions available at repetition 1, [rep_end] is 3. *)
Lemma contiguous_fetch_for_positive_rep_end_witness :
  Data_transfer.get_new_data_via
    (Data_transfer._fetch_data_typed Data_transfer.scenario)
    Data_transfer.scenario 2 200 =
  Data_transfer._fetch_data_typed Data_transfer.scenario 200 2.
Proof.
  refine (proj1 (contiguous_fetch_for_positive_rep_end Z Data_transfer.scenario
                   2 200 _ _) _).
  - vm_compute; discriminate.
  - vm_compute; discriminate.
Defined.

(** ** Fetch and release *)

Lemma c_int32_fits (b : Z) :
  Data_fetch_ungated.fits_int32 b -> c_int32 b = b.
Proof.
  unfold Data_fetch_ungated.fits_int32, c_int32. intros H.
  rewrite Z.mod_small by lia. lia.
Qed.

Lemma released_app (a b : list event) :
  Data_process_command.released (a ++ b) =
  Data_process_command.released a ++ Data_process_command.released b.
Proof. apply flat_map_app. Qed.

Lemma released_report (fr : Card_command.frame) (c : Card_command.t) :
  Data_process_command.released (Card_command.out (Card_command.report fr c)) =
  Data_process_command.released (Card_command.out c).
Proof.
  rewrite report_out, released_app.
  destruct (Card_command._error_check c);
    [destruct (negb (Card_command._error c =? 0))|]; simpl;
    now rewrite app_nil_r.
Qed.

Section FetchFacts.

Import Data_fetch_ungated.

Variable T : Type.
Variable hw : Z -> Z -> W (list T).

(** The data transfer object sends no release of its own. *)
Hypothesis hw_releases_nothing :
  forall k pos, Data_process_command.released (fst (hw k pos)) = [].

(** One fetch that returns: one release, of [c_int32 (k * seq_size_B)], and
    the counter advanced by [k * seq_size_B]. *)
Lemma fetch_data_to_dc_returns fr e pos k (self : t) (dc : SeqData T) d printed :
  hw k pos = (printed, Ok d) ->
  exists self',
    fetch_data_to_dc T hw fr e pos k self dc
      = (self', mkdc (Some d) (Some k), Ok d) /\
    Data_process_command.released (trace self') =
      Data_process_command.released (trace self) ++ [c_int32 (k * seq_size_B self)] /\
    processed self' = processed self + k * seq_size_B self /\
    seq_size_B self' = seq_size_B self.
Proof.
  intros Hhw. unfold fetch_data_to_dc. cbn [Data_process_command.get_avail_user_pos_B].
  rewrite Hhw. eexists. split; [reflexivity|].
  pose proof (hw_releases_nothing k pos) as Hs. rewrite Hhw in Hs. cbn [fst] in Hs.
  unfold trace, processed; cbn. repeat split.
  rewrite !released_app, released_report, Hs. cbn. rewrite !released_app.
  unfold Data_process_command.released; cbn. now rewrite ?app_nil_r.
Qed.

(** One fetch that raises: no release, the counter and [dc] as they were. *)
Lemma fetch_data_to_dc_raises fr e pos k (self : t) (dc : SeqData T) cls printed :
  hw k pos = (printed, Raise cls) ->
  exists self',
    fetch_data_to_dc T hw fr e pos k self dc = (self', dc, Raise cls) /\
    Data_process_command.released (trace self') =
      Data_process_command.released (trace self) /\
    processed self' = processed self /\
    seq_size_B self' = seq_size_B self.
Proof.
  intros Hhw. unfold fetch_data_to_dc. cbn [Data_process_command.get_avail_user_pos_B].
  rewrite Hhw. eexists. split; [reflexivity|].
  pose proof (hw_releases_nothing k pos) as Hs. rewrite Hhw in Hs. cbn [fst] in Hs.
  unfold trace, processed; cbn. repeat split.
  rewrite !released_app, released_report, Hs. cbn. rewrite !released_app.
  unfold Data_process_command.released; cbn. now rewrite ?app_nil_r.
Qed.

Lemma run_accounts (reqs : list request) :
  forall (self : t) (dc : SeqData T),
    Data_process_command.released (trace (fst (fst (run T hw reqs self dc)))) =
      Data_process_command.released (trace self)
      ++ map c_int32 (fetched_B self (snd (run T hw reqs self dc))) /\
    processed (fst (fst (run T hw reqs self dc))) =
      processed self + total (fetched_B self (snd (run T hw reqs self dc))) /\
    seq_size_B (fst (fst (run T hw reqs self dc))) = seq_size_B self.
Proof.
  induction reqs as [|r reqs IH]; intros self dc.
  - cbn. rewrite app_nil_r. repeat split; lia.
  - cbn [run].
    destruct (hw (req_reps r) (req_pos r)) as [printed [d|cls]] eqn:Hhw.
    + destruct (fetch_data_to_dc_returns (req_frame r) (req_err r) _ _ self dc _ _ Hhw)
        as (self1 & -> & Hrel & Hproc & Hseq).
      specialize (IH self1 (mkdc (Some d) (Some (req_reps r)))).
      destruct (run T hw reqs self1 (mkdc (Some d) (Some (req_reps r))))
        as [[self2 dc2] done].
      cbn [fst snd] in *. destruct IH as (IH1 & IH2 & IH3).
      unfold fetched_B in *. rewrite Hseq in *. cbn [map total fold_right].
      rewrite IH1, IH2, IH3, Hrel, Hproc, <- app_assoc. cbn.
      unfold total. repeat split; lia.
    + destruct (fetch_data_to_dc_raises (req_frame r) (req_err r) _ _ self dc _ _ Hhw)
        as (self1 & -> & Hrel & Hproc & Hseq).
      specialize (IH self1 dc). destruct IH as (IH1 & IH2 & IH3).
      unfold fetched_B in *. rewrite Hseq in *.
      rewrite IH1, IH2, IH3, Hrel, Hproc. repeat split; reflexivity.
Qed.

End FetchFacts.

(** [get_new_data] sends no release, whatever method reads for it, as long
    as that method sends none. *)
Lemma get_new_data_via_releases_nothing (T : Type) (self : Data_transfer.t T)
    (fetch : Z -> Z -> W (list T)) :
  (forall p n, Data_process_command.released (fst (fetch p n)) = []) ->
  forall k pos,
    Data_process_command.released
      (fst (Data_transfer.get_new_data_via fetch self k pos)) = [].
Proof.
  intros Hf k pos.
  unfold Data_transfer.get_new_data_via, int_truediv.
  destruct (Data_transfer.seq_size_B self =? 0) eqn:E; [reflexivity|].
  rewrite bind_lift_ok.
  destruct ((0 <? _) && (_ <=? _)); [apply Hf|].
  destruct ((_ <? _) && (_ <? _)); [|reflexivity].
  unfold Data_transfer._fetch_data_buf_end_via, int_truediv_succ.
  rewrite E, bind_lift_ok. cbv zeta.
  match goal with
  | |- context [Py.bind (fetch ?p ?n) _] =>
      pose proof (Hf p n) as H1; destruct (fetch p n) as [o1 [tail|c1]]
  end; cbn [Py.bind fst] in *; [|assumption].
  match goal with
  | |- context [Py.bind (fetch ?p ?n) _] =>
      pose proof (Hf p n) as H2; destruct (fetch p n) as [o2 [head|c2]]
  end; cbn [Py.bind Py.ret fst] in *;
    rewrite ?released_app, ?H1, ?H2; reflexivity.
Qed.

Lemma get_new_data_releases_nothing (T : Type) (self : Data_transfer.t T) k pos :
  Data_process_command.released (fst (Data_transfer.get_new_data self k pos)) = [].
Proof.
  apply get_new_data_via_releases_nothing. intros p n. reflexivity.
Qed.

Lemma _fetch_data_typed_releases_nothing (T : Type) (self : Data_transfer.t T) p n :
  Data_process_command.released (fst (Data_transfer._fetch_data_typed self p n)) = [].
Proof.
  unfold Data_transfer._fetch_data_typed, Data_transfer._fetch_from_buf,
    Data_transfer._asnparray.
  now destruct (_ <? 0).
Qed.

(** Release of a length a [c_int32] does not hold: the driver receives the
    wrapped length, the counter adds the length given. *)
Lemma release_of_2GiB_wraps :
  forall self : Data_process_command.t,
    Data_process_command.released
      (Card_command.out
         (Data_process_command.base
            (Data_process_command.set_avail_card_len_B (2 ^ 31) self)))
    = Data_process_command.released
        (Card_command.out (Data_process_command.base self)) ++ [- 2 ^ 31] /\
    Data_process_command.processed_data_B
      (Data_process_command.set_avail_card_len_B (2 ^ 31) self)
    = Data_process_command.processed_data_B self + 2 ^ 31.
Proof.
  intros self. split; [|reflexivity].
  cbn. now rewrite released_app.
Qed.




(** C4, the claim at [rep_end = 2 * reps_per_buf].  On the buffer of the
    scenario, with the cursor at repetition 3 and 5 repetitions available,
    [rep_end] is 8: the fetch prints a line and ends in [UnboundLocalError];
    no [BufferOverrunError] is raised. *)
Lemma overrun_fetch_is_no_BufferOverrunError :
  Data_transfer.rep_end Data_transfer.scenario 5 600 = 8 /\
  2 * Data_transfer.reps_per_buf Data_transfer.scenario <= 8 /\
  Data_transfer.get_new_data Data_transfer.scenario 5 600 =
    ([Print "error: rep_end 8 is out of range"], Raise "UnboundLocalError") /\
  snd (Data_transfer.get_new_data Data_transfer.scenario 5 600)
    <> Raise "BufferOverrunError".
Proof. repeat split; discriminate. Qed.

(** C4, amended.  For a segment size that is not 0 and
    [rep_end >= 2 * reps_per_buf] the fetch does not handle the condition
    silently: it prints the out-of-range line, and that is all it sends out.
    It reads nothing, whatever method would read (the outcome is the same for
    every such method), and it reports no [BufferOverrunError]. *)
Theorem overrun_fetch_prints_and_reads_nothing :
  forall (T : Type) (self : Data_transfer.t T) (k pos : Z),
    Data_transfer.seq_size_B self <> 0 ->
    2 * Data_transfer.reps_per_buf self <= Data_transfer.rep_end self k pos ->
    forall fetch : Z -> Z -> W (list T),
      let r := Data_transfer.get_new_data_via fetch self k pos in
      fst r = [Print (Data_transfer.out_of_range_line
                        (Data_transfer.rep_end self k pos))] /\
      r = Data_transfer.get_new_data self k pos /\
      snd r <> Raise "BufferOverrunError".
Proof.
  intros T self k pos HB Hre fetch r. subst r.
  unfold Data_transfer.get_new_data.
  rewrite !get_new_data_via_out_of_range by (assumption || lia).
  cbn [fst snd]. repeat split; intros; discriminate.
Qed.

(** With 6 repetitions available at repetition 3, [rep_end] is 9. *)
Lemma overrun_fetch_prints_and_reads_nothing_witness :
  fst (Data_transfer.get_new_data_via
         (Data_transfer._fetch_data_typed Data_transfer.scenario)
         Data_transfer.scenario 6 600)
  = [Print "error: rep_end 9 is out of range"].
Proof.
  refine (proj1 (overrun_fetch_prints_and_reads_nothing Z Data_transfer.scenario
                   6 600 _ _
                   (Data_transfer._fetch_data_typed Data_transfer.scenario))).
  - vm_compute; discriminate.
  - vm_compute; discriminate.
Defined.

(** ** The decision of the loop body *)

Section CommanderFacts.

Import Data_process_commander.

Variable fr : Card_command.frame.
Variable drv_err : Z.

(** After [_toggle_trigger(b)] on a flag that is set, the flag is [b];
    nothing else of the decision changes. *)
Lemma _toggle_trigger_sets (b e : bool) (self : t) :
  trigger_enabled self = Some e ->
  trigger_enabled (fst (_toggle_trigger fr drv_err b self)) = Some b /\
  snd (_toggle_trigger fr drv_err b self) = Ok tt /\
  trig_counter (fst (_toggle_trigger fr drv_err b self)) = trig_counter self /\
  avg_num (fst (_toggle_trigger fr drv_err b self)) = avg_num self /\
  reps_per_buf (fst (_toggle_trigger fr drv_err b self)) = reps_per_buf self /\
  trigger_on (fst (_toggle_trigger fr drv_err b self)) = trigger_on self /\
  wait_trigger_on (fst (_toggle_trigger fr drv_err b self)) = wait_trigger_on self /\
  data_process_on (fst (_toggle_trigger fr drv_err b self)) = data_process_on self.
Proof.
  intros E. unfold _toggle_trigger. rewrite E.
  destruct b, e; cbn; auto 10.
Qed.

(** On a flag that is unset the comparison raises. *)
Lemma _toggle_trigger_unset (b : bool) (self : t) :
  trigger_enabled self = None ->
  _toggle_trigger fr drv_err b self = (self, Raise "AttributeError").
Proof.
  intros E. unfold _toggle_trigger. now rewrite E.
Qed.

Lemma decision_flags (c : Z) (self : t) :
  trigger_on (decision c self)
    = Some ((unprocessed_reps c self =? 0)
            || (unprocessed_reps c self <? 2 * reps_per_buf self)) /\
  wait_trigger_on (decision c self) = Some (unprocessed_reps c self =? 0) /\
  data_process_on (decision c self) = Some (negb (unprocessed_reps c self =? 0)) /\
  trig_counter (decision c self) = trig_counter self /\
  avg_num (decision c self) = avg_num self /\
  reps_per_buf (decision c self) = reps_per_buf self /\
  trigger_enabled (decision c self) = trigger_enabled self.
Proof.
  unfold decision.
  destruct (Z.eqb_spec (unprocessed_reps c self) 0); [cbn; auto 10|].
  destruct (Z.ltb_spec (unprocessed_reps c self) (2 * reps_per_buf self));
    [cbn; auto 10|].
  destruct (Z.geb_spec (unprocessed_reps c self) (2 * reps_per_buf self));
    [cbn; auto 10|lia].
Qed.

End CommanderFacts.

(** C3.  [command_process] never returns: in every state and whatever the
    driver answers the call ends in [AttributeError], so no iteration of the
    loop follows the decision.  On the loop object as the code builds it, it
    raises at the read of [self.trig_counter], before any decision: the
    object is as it was, no flag set and nothing sent to the driver.  With
    the counter and the flag [trigger_enabled] assigned from outside the
    decision is the one the claim states, for a buffer of at least one
    repetition: after the toggle the flag is false exactly when
    [trig_counter - avg.num >= 2 * reps_per_buf]; the call then raises at
    [_process_data_with_trigger_off], which no class defines. *)
Theorem command_process_never_returns :
  forall (fr : Card_command.frame) (drv_err : Z) (self : Data_process_commander.t),
    let r := Data_process_commander.command_process fr drv_err self in
    snd r = Raise "AttributeError" /\
    (Data_process_commander.trig_counter self = None -> fst r = self) /\
    (forall (c : Z) (e : bool),
        Data_process_commander.trig_counter self = Some c ->
        Data_process_commander.trigger_enabled self = Some e ->
        0 < Data_process_commander.reps_per_buf self ->
        (Data_process_commander.trigger_enabled (fst r) = Some false
         <-> 2 * Data_process_commander.reps_per_buf self
             <= c - Data_process_commander.avg_num self) /\
        (Data_process_commander.trigger_enabled (fst r) = Some true
         <-> c - Data_process_commander.avg_num self
             < 2 * Data_process_commander.reps_per_buf self)) /\
    Data_process_commander.command_process
      Data_process_commander.scenario_frame 0 Data_process_commander.built_state
    = (Data_process_commander.built_state, Raise "AttributeError") /\
    snd (Data_process_commander.command_process
           Data_process_commander.scenario_frame 0
           Data_process_commander.backlog_state)
    = Raise "AttributeError".
Proof.
  intros fr drv_err self r. subst r.
  assert (Hb : Data_process_commander.command_process
                 Data_process_commander.scenario_frame 0
                 Data_process_commander.built_state
               = (Data_process_commander.built_state, Raise "AttributeError"))
    by reflexivity.
  assert (Hs : snd (Data_process_commander.command_process
                      Data_process_commander.scenario_frame 0
                      Data_process_commander.backlog_state)
               = Raise "AttributeError") by reflexivity.
  unfold Data_process_commander.command_process at 1 2 3 4.
  destruct (Data_process_commander.trig_counter self) as [c|] eqn:Ec.
  2:{ split; [reflexivity|]. split; [reflexivity|].
      split; [intros c e H; discriminate H|]. split; assumption. }
  destruct (decision_flags c self) as (Hon & Hw & Hp & Ht & Ha & Hr & He).
  rewrite Hon.
  set (wanted := (Data_process_commander.unprocessed_reps c self =? 0)
                 || (Data_process_commander.unprocessed_reps c self
                     <? 2 * Data_process_commander.reps_per_buf self)) in *.
  destruct (Data_process_commander.trigger_enabled self) as [e|] eqn:Ee.
  - destruct (_toggle_trigger_sets fr drv_err wanted e
                (Data_process_commander.decision c self) He)
      as (T1 & T2 & _).
    destruct (Data_process_commander._toggle_trigger fr drv_err wanted
                (Data_process_commander.decision c self)) as [s2 res].
    cbn [fst snd] in *. subst res. cbn [fst snd].
    split; [reflexivity|]. split; [intros H; discriminate H|].
    split; [|split; assumption].
    intros c' e' Hc' _ HR. injection Hc' as <-. rewrite T1.
    unfold wanted, Data_process_commander.unprocessed_reps.
    destruct (Z.eqb_spec (c - Data_process_commander.avg_num self) 0);
      destruct (Z.ltb_spec (c - Data_process_commander.avg_num self)
                  (2 * Data_process_commander.reps_per_buf self));
      cbn [orb]; (split; split); intros; try reflexivity; try discriminate;
      try lia.
  - rewrite (_toggle_trigger_unset fr drv_err wanted
               (Data_process_commander.decision c self) He).
    cbn [fst snd].
    split; [reflexivity|]. split; [intros H; discriminate H|].
    split; [|split; assumption].
    intros c' e' _ H; discriminate H.
Qed.

(** ** The snapshot read *)



(** ** The status of the controller *)

Ltac controller_status self :=
  destruct self as [[[card err chk out]|] st lo te th lg];
  unfold SpectrumInstrumentation.stop_measure,
    SpectrumInstrumentation.pause_measure,
    SpectrumInstrumentation.continue_measure,
    SpectrumInstrumentation.get_status;
  destruct st, th; cbn; auto.

(** C9, the claim on a controller in the error state.  From the status
    [error], [stop_measure] returns 0 and the status is [idle]; after
    [continue_measure] the status is [running]. *)
Lemma stop_measure_leaves_error :
  SpectrumInstrumentation.get_status SpectrumInstrumentation.error_state = error /\
  snd (SpectrumInstrumentation.stop_measure SpectrumInstrumentation.no_error
         SpectrumInstrumentation.error_state) = Ok 0 /\
  SpectrumInstrumentation.get_status
    (SpectrumInstrumentation.perform SpectrumInstrumentation.Stop
       SpectrumInstrumentation.no_error SpectrumInstrumentation.error_state) = idle /\
  SpectrumInstrumentation.get_status
    (SpectrumInstrumentation.perform SpectrumInstrumentation.Continue
       SpectrumInstrumentation.no_error SpectrumInstrumentation.error_state) = running.
Proof. repeat split. Qed.

(** C9, amended.  The public operations write the status without looking at
    it, except that [stop_measure] stops the card only from [running].  In
    every state, [error] included, and whatever the driver answers: after an
    operation the status is the one the operation writes ([idle], [paused],
    [running]) or the one it was, never another; [stop_measure] and
    [pause_measure] leave [idle] and [paused] when they return and the status
    as it was when they raise; [continue_measure] leaves [running]; and
    [stop_measure] returns 0 from every status other than [running]. *)
Theorem status_follows_the_operation :
  forall (a : SpectrumInstrumentation.answers) (self : SpectrumInstrumentation.t),
    (forall op : SpectrumInstrumentation.operation,
        SpectrumInstrumentation.get_status (SpectrumInstrumentation.perform op a self)
        = SpectrumInstrumentation.target op \/
        SpectrumInstrumentation.get_status (SpectrumInstrumentation.perform op a self)
        = SpectrumInstrumentation.get_status self) /\
    SpectrumInstrumentation.get_status
      (fst (SpectrumInstrumentation.stop_measure a self))
      = (if is_ok (snd (SpectrumInstrumentation.stop_measure a self))
         then idle else SpectrumInstrumentation.get_status self) /\
    SpectrumInstrumentation.get_status
      (fst (SpectrumInstrumentation.pause_measure a self))
      = (if is_ok (snd (SpectrumInstrumentation.pause_measure a self))
         then paused else SpectrumInstrumentation.get_status self) /\
    SpectrumInstrumentation.get_status
      (fst (SpectrumInstrumentation.continue_measure a self)) = running /\
    (SpectrumInstrumentation.get_status self = running \/
     snd (SpectrumInstrumentation.stop_measure a self) = Ok 0).
Proof.
  intros a self.
  assert (Hstop :
    SpectrumInstrumentation.get_status
      (fst (SpectrumInstrumentation.stop_measure a self))
      = (if is_ok (snd (SpectrumInstrumentation.stop_measure a self))
         then idle else SpectrumInstrumentation.get_status self) /\
    (SpectrumInstrumentation.get_status self = running \/
     snd (SpectrumInstrumentation.stop_measure a self) = Ok 0))
    by (controller_status self).
  assert (Hpause :
    SpectrumInstrumentation.get_status
      (fst (SpectrumInstrumentation.pause_measure a self))
      = (if is_ok (snd (SpectrumInstrumentation.pause_measure a self))
         then paused else SpectrumInstrumentation.get_status self))
    by (controller_status self).
  assert (Hcont :
    SpectrumInstrumentation.get_status
      (fst (SpectrumInstrumentation.continue_measure a self)) = running)
    by (controller_status self).
  destruct Hstop as [Hs1 Hs2].
  split; [|split; [exact Hs1|split; [exact Hpause|split; [exact Hcont|exact Hs2]]]].
  intros [| |]; cbn [SpectrumInstrumentation.perform SpectrumInstrumentation.target].
  - rewrite Hs1.
    destruct (is_ok (snd (SpectrumInstrumentation.stop_measure a self))); auto.
  - rewrite Hpause.
    destruct (is_ok (snd (SpectrumInstrumentation.pause_measure a self))); auto.
  - auto.
Qed.

(** ** The weighted average *)

Section AveragingFacts.

Import Averaging.

Local Open Scope Q_scope.

Lemma nth_map_combine (f : Q * Q -> Q) (d : Q) :
  forall (cur new : list Q) (i : nat),
    (i < List.length cur)%nat -> (i < List.length new)%nat ->
    nth i (map f (List.combine cur new)) d = f (nth i cur d, nth i new d).
Proof.
  induction cur as [|c cur IH]; intros [|x new] [|i] Hc Hn; cbn in *;
    try lia; try reflexivity.
  apply IH; lia.
Qed.

Lemma inject_Z_sum_nonzero (n m : Z) :
  (n + m <> 0)%Z -> ~ inject_Z n + inject_Z m == 0.
Proof.
  intros H E. apply H.
  apply (proj1 (inject_Z_injective (n + m) 0)). rewrite inject_Z_plus. exact E.
Qed.

(** The incremental update of section 4.4 is the weighted merge. *)
Lemma incremental_is_weighted (n m : Z) (mean batch_mean : Q) :
  (n + m <> 0)%Z ->
  incremental n m mean batch_mean == weighted n m mean batch_mean.
Proof.
  intros H. unfold incremental, weighted. rewrite inject_Z_plus.
  field. now apply inject_Z_sum_nonzero.
Qed.

(** Without rounding the weighted merge is associative. *)
Lemma weighted_associative (nA nB nC : Z) (a b c : Q) :
  (nA + nB <> 0)%Z -> (nB + nC <> 0)%Z -> (nA + nB + nC <> 0)%Z ->
  weighted (nA + nB) nC (weighted nA nB a b) c
  == weighted nA (nB + nC) a (weighted nB nC b c).
Proof.
  intros HAB HBC HABC. unfold weighted.
  replace (nA + (nB + nC))%Z with (nA + nB + nC)%Z by lia.
  rewrite !inject_Z_plus. field.
  repeat split; try (now apply inject_Z_sum_nonzero).
  rewrite <- inject_Z_plus. now apply inject_Z_sum_nonzero.
Qed.

End AveragingFacts.

(** C2.  When the current count is 0 the result is the new batch as it is,
    samples and count, nothing divided.  Otherwise the count is the sum of
    the two counts and each sample, as far as both sequences reach, is
    [(cur * n + new * m) / (n + m)].  On the scenario (mean [1, 2] over 10
    repetitions, new mean [3, 4] over 5) the result is
    [(1*10 + 3*5)/15, (2*10 + 4*5)/15], that is [5/3, 8/3], with count 15. *)
Theorem averaging_combine :
  forall (current : Averaging.CumulativeAverage) (new_samples : list Q)
         (new_rep_count : Z),
    let n := Averaging.repetition_count current in
    let result := Averaging.combine current new_samples new_rep_count in
    (n = 0 -> result = Averaging.mk new_samples new_rep_count) /\
    (n <> 0 ->
     Averaging.repetition_count result = n + new_rep_count /\
     List.length (Averaging.sample_values result)
       = Nat.min (List.length (Averaging.sample_values current)) (List.length new_samples) /\
     forall i : nat,
       (i < List.length (Averaging.sample_values current))%nat ->
       (i < List.length new_samples)%nat ->
       nth i (Averaging.sample_values result) 0%Q
       = ((nth i (Averaging.sample_values current) 0 * inject_Z n
           + nth i new_samples 0 * inject_Z new_rep_count)
          / inject_Z (n + new_rep_count))%Q) /\
    Averaging.combine Averaging.scenario_current Averaging.scenario_new 5
      = Averaging.mk
          [((1 * inject_Z 10 + 3 * inject_Z 5) / inject_Z 15)%Q;
           ((2 * inject_Z 10 + 4 * inject_Z 5) / inject_Z 15)%Q] 15 /\
    Forall2 Qeq
      (Averaging.sample_values
         (Averaging.combine Averaging.scenario_current Averaging.scenario_new 5))
      [(5 # 3)%Q; (8 # 3)%Q].
Proof.
  intros current new_samples new_rep_count n result.
  unfold result, Averaging.combine. fold n.
  repeat split.
  - intros ->. reflexivity.
  - destruct (Z.eqb_spec n 0); [contradiction|reflexivity].
  - destruct (Z.eqb_spec n 0); [contradiction|]. cbn.
    now rewrite length_map, length_combine.
  - intros i Hc Hn. destruct (Z.eqb_spec n 0); [contradiction|]. cbn.
    now rewrite nth_map_combine.
  - repeat constructor.
Qed.

(** The scenario: count 15, first sample 5/3. *)
Lemma averaging_combine_witness :
  Averaging.repetition_count
    (Averaging.combine Averaging.scenario_current Averaging.scenario_new 5) = 15 /\
  (nth 0 (Averaging.sample_values
            (Averaging.combine Averaging.scenario_current Averaging.scenario_new 5))
       0 == 5 # 3)%Q.
Proof.
  destruct (averaging_combine Averaging.scenario_current Averaging.scenario_new 5)
    as (_ & H & _).
  destruct (H ltac:(discriminate)) as (H1 & _ & H3).
  split; [exact H1|].
  rewrite (H3 0%nat) by (cbn; repeat constructor).
  reflexivity.
Defined.

(** ** What reaches the driver on a release *)

Lemma c_int32_range (z : Z) : Data_fetch_ungated.fits_int32 (c_int32 z).
Proof.
  unfold Data_fetch_ungated.fits_int32, c_int32.
  pose proof (Z.mod_pos_bound (z + 2 ^ 31) (2 ^ 32) ltac:(lia)). lia.
Qed.

Lemma c_int32_congruent (z : Z) : (c_int32 z - z) mod 2 ^ 32 = 0.
Proof.
  unfold c_int32.
  rewrite (Z.mod_eq (z + 2 ^ 31) (2 ^ 32)) by lia.
  replace (z + 2 ^ 31 - 2 ^ 32 * ((z + 2 ^ 31) / 2 ^ 32) - 2 ^ 31 - z)
    with (- ((z + 2 ^ 31) / 2 ^ 32) * 2 ^ 32) by lia.
  apply Z.mod_mul. lia.
Qed.

(** Every release, whatever its length: the driver receives the [c_int32] of
    the length, a value a 32-bit integer holds that differs from the length
    by a multiple of 2^32, and the same as the length exactly when a 32-bit
    integer holds the length; the counter adds the length itself. *)
Theorem release_reaches_driver_as_c_int32 :
  forall (len : Z) (self : Data_process_command.t),
    let after := Data_process_command.set_avail_card_len_B len self in
    Data_process_command.released
      (Card_command.out (Data_process_command.base after))
    = Data_process_command.released
        (Card_command.out (Data_process_command.base self)) ++ [c_int32 len] /\
    Data_process_command.processed_data_B after
    = Data_process_command.processed_data_B self + len /\
    Data_fetch_ungated.fits_int32 (c_int32 len) /\
    (c_int32 len - len) mod 2 ^ 32 = 0 /\
    (c_int32 len = len <-> Data_fetch_ungated.fits_int32 len).
Proof.
  intros len self after. unfold after.
  split; [cbn; now rewrite released_app|].
  split; [reflexivity|].
  split; [apply c_int32_range|].
  split; [apply c_int32_congruent|].
  split; [intros <-; apply c_int32_range|apply c_int32_fits].
Qed.

(** ** The ring buffer read as a circle *)

Lemma seq_from (a b : nat) : seq a b = map (fun j => (a + j)%nat) (seq 0 b).
Proof.
  revert a. induction b as [|b IH]; intros a; cbn; [reflexivity|].
  rewrite Nat.add_0_r. f_equal. rewrite <- (seq_shift b 0), map_map, (IH (S a)).
  apply map_ext. intros j. lia.
Qed.

Section CircularRead.

Import Data_transfer.

Variable T : Type.
Variable self : t T.

(** Cursor on a repetition boundary, segment size the product of the
    samples per segment and the sample width. *)
Variable q : Z.
Hypothesis sample_width : 0 < data_type self.
Hypothesis samples : 0 < seq_size_S self.
Hypothesis segment : seq_size_B self = seq_size_S self * data_type self.
Hypothesis cursor : 0 <= q <= reps_per_buf self.

Lemma aligned_quot : Z.quot (q * seq_size_B self) (seq_size_B self) = q.
Proof. apply Z.quot_mul. rewrite segment. nia. Qed.

Lemma wraparound_views (k : Z) :
  reps_per_buf self < q + k < 2 * reps_per_buf self ->
  get_new_data_via (_fetch_data_typed self) self k (q * seq_size_B self) =
  ([], Ok (view self (q * seq_size_B self)
             ((reps_per_buf self - q) * seq_size_S self)
           ++ view self 0 ((k - (reps_per_buf self - q)) * seq_size_S self))).
Proof.
  intros Hk.
  assert (HB : 0 < seq_size_B self) by (rewrite segment; nia).
  rewrite get_new_data_via_wraparound
    by (try lia; unfold rep_end; rewrite aligned_quot; lia).
  rewrite _fetch_data_buf_end_via_typed;
    try (unfold rep_end); rewrite ?aligned_quot; try lia; try nia.
  reflexivity.
Qed.

Lemma contiguous_view (k : Z) :
  0 <= k -> 0 < q + k <= reps_per_buf self ->
  get_new_data_via (_fetch_data_typed self) self k (q * seq_size_B self) =
  ([], Ok (view self (q * seq_size_B self) (k * seq_size_S self))).
Proof.
  intros Hk0 Hk.
  assert (HB : 0 < seq_size_B self) by (rewrite segment; nia).
  rewrite get_new_data_via_contiguous
    by (try lia; unfold rep_end; rewrite aligned_quot; lia).
  apply _fetch_data_typed_view. nia.
Qed.

End CircularRead.

(** The walk around the ring, for both branches of the fetch. *)
Lemma fetch_reads_around_the_ring_aux :
  forall (T : Type) (self : Data_transfer.t T) (q k : Z),
    0 < Data_transfer.data_type self ->
    0 < Data_transfer.seq_size_S self ->
    Data_transfer.seq_size_B self
      = Data_transfer.seq_size_S self * Data_transfer.data_type self ->
    0 <= q <= Data_transfer.reps_per_buf self ->
    0 <= k ->
    0 < q + k < 2 * Data_transfer.reps_per_buf self ->
    Data_transfer.get_new_data_via (Data_transfer._fetch_data_typed self) self k
      (q * Data_transfer.seq_size_B self) =
    ([], Ok (map (fun i : nat =>
                    Data_transfer.c_buf_ptr self
                      ((q * Data_transfer.seq_size_B self
                        + Z.of_nat i * Data_transfer.data_type self)
                       mod (Data_transfer.reps_per_buf self
                            * Data_transfer.seq_size_B self)))
                 (seq 0 (Z.to_nat (k * Data_transfer.seq_size_S self))))).
Proof.
  intros T self q k Hd HS HB Hq Hk0 Hk.
  destruct (Z_le_gt_dec (q + k) (Data_transfer.reps_per_buf self)) as [Hc|Hw].
  - rewrite (contiguous_view T self q Hd HS HB k) by lia.
    set (d := Data_transfer.data_type self) in *.
    set (SS := Data_transfer.seq_size_S self) in *.
    set (B := Data_transfer.seq_size_B self) in *.
    set (R := Data_transfer.reps_per_buf self) in *.
    do 2 f_equal. unfold Data_transfer.view. fold d.
    apply map_ext_in. intros i Hi. apply in_seq in Hi. f_equal.
    symmetry. apply Z.mod_small.
    assert (Z.of_nat i < k * SS) by lia.
    assert (q * B + k * SS * d <= R * B) by (rewrite HB; nia).
    nia.
  - rewrite (wraparound_views T self q Hd HS HB Hq k) by lia.
    set (d := Data_transfer.data_type self) in *.
    set (SS := Data_transfer.seq_size_S self) in *.
    set (B := Data_transfer.seq_size_B self) in *.
    set (R := Data_transfer.reps_per_buf self) in *.
    do 2 f_equal. unfold Data_transfer.view. fold d.
    set (n1 := (R - q) * SS). set (n2 := (k - (R - q)) * SS).
    assert (Hn1 : 0 <= n1) by (unfold n1; nia).
    assert (Hn2 : 0 <= n2) by (unfold n2; nia).
    replace (k * SS) with (n1 + n2) by (unfold n1, n2; lia).
    rewrite Z2Nat.inj_add by assumption.
    rewrite seq_app, map_app. cbn [Nat.add]. f_equal.
    + apply map_ext_in. intros i Hi. apply in_seq in Hi. f_equal.
      symmetry. apply Z.mod_small.
      assert (Z.of_nat i < n1) by lia.
      assert (q * B + n1 * d = R * B) by (unfold n1; rewrite HB; lia).
      nia.
    + rewrite (seq_from (Z.to_nat n1)), map_map.
      apply map_ext_in. intros j Hj. apply in_seq in Hj. f_equal.
      rewrite Nat2Z.inj_add, Z2Nat.id by assumption.
      assert (E : q * B + n1 * d = R * B) by (unfold n1; rewrite HB; lia).
      replace (q * B + (n1 + Z.of_nat j) * d)
        with (Z.of_nat j * d + 1 * (R * B)) by lia.
      rewrite Z.mod_add by nia.
      symmetry. apply Z.mod_small.
      assert (Z.of_nat j < n2) by lia.
      assert (n2 * d < R * B) by (unfold n2; rewrite HB; nia).
      nia.
Qed.

(** The fetch over a method that reads, with the cursor on a repetition
    boundary: in both branches the samples returned are those met when
    walking [curr_avail_reps * seq_size_S] sample widths from the cursor on
    around the buffer taken as a circle of [reps_per_buf * seq_size_B]
    bytes. *)
Theorem fetch_reads_around_the_ring :
  forall (T : Type) (self : Data_transfer.t T) (q k : Z),
    0 < Data_transfer.data_type self ->
    0 < Data_transfer.seq_size_S self ->
    Data_transfer.seq_size_B self
      = Data_transfer.seq_size_S self * Data_transfer.data_type self ->
    0 <= q <= Data_transfer.reps_per_buf self ->
    0 <= k ->
    0 < q + k < 2 * Data_transfer.reps_per_buf self ->
    Data_transfer.get_new_data_via (Data_transfer._fetch_data_typed self) self k
      (q * Data_transfer.seq_size_B self) =
    ([], Ok (map (fun i : nat =>
                    Data_transfer.c_buf_ptr self
                      ((q * Data_transfer.seq_size_B self
                        + Z.of_nat i * Data_transfer.data_type self)
                       mod (Data_transfer.reps_per_buf self
                            * Data_transfer.seq_size_B self)))
                 (seq 0 (Z.to_nat (k * Data_transfer.seq_size_S self))))).
Proof. exact fetch_reads_around_the_ring_aux. Qed.

(** The scenario: 3 repetitions from repetition 3 on a buffer of 4. *)
Lemma fetch_reads_around_the_ring_witness :
  Data_transfer.get_new_data_via
    (Data_transfer._fetch_data_typed Data_transfer.scenario)
    Data_transfer.scenario 3 600 =
  ([], Ok (map (fun i : nat => ((600 + Z.of_nat i * 2) mod 800) / 2)
               (seq 0 300))).
Proof.
  refine (fetch_reads_around_the_ring Z Data_transfer.scenario 3 3 _ _ _ _ _ _);
    vm_compute; try reflexivity; intuition discriminate.
Defined.

Lemma ring_walk_injective (pos d M : Z) (i j : Z) :
  0 < d -> 0 <= i -> 0 <= j -> i * d < M -> j * d < M ->
  (pos + i * d) mod M = (pos + j * d) mod M -> i = j.
Proof.
  intros Hd Hi Hj HiM HjM E.
  assert (HM : 0 < M) by nia.
  pose proof (Z.mod_eq (pos + i * d) M ltac:(lia)) as Ei.
  pose proof (Z.mod_eq (pos + j * d) M ltac:(lia)) as Ej.
  set (u := (pos + i * d) / M - (pos + j * d) / M).
  assert (Hu : (i - j) * d = M * u) by (unfold u; lia).
  assert (u = 0) by nia.
  nia.
Qed.

(** The fetch over a method that reads, with the cursor on a repetition
    boundary and no more repetitions asked for than the buffer holds: the
    samples returned are read at [curr_avail_reps * seq_size_S] byte offsets
    that are pairwise distinct and lie, sample width included, inside the
    [reps_per_buf * seq_size_B] bytes of the buffer. *)
Theorem fetch_stays_in_the_buffer :
  forall (T : Type) (self : Data_transfer.t T) (q k : Z),
    0 < Data_transfer.data_type self ->
    0 < Data_transfer.seq_size_S self ->
    Data_transfer.seq_size_B self
      = Data_transfer.seq_size_S self * Data_transfer.data_type self ->
    0 <= q <= Data_transfer.reps_per_buf self ->
    0 <= k <= Data_transfer.reps_per_buf self ->
    0 < q + k < 2 * Data_transfer.reps_per_buf self ->
    exists offsets : list Z,
      Data_transfer.get_new_data_via (Data_transfer._fetch_data_typed self) self k
        (q * Data_transfer.seq_size_B self)
      = ([], Ok (map (Data_transfer.c_buf_ptr self) offsets)) /\
      List.length offsets = Z.to_nat (k * Data_transfer.seq_size_S self) /\
      NoDup offsets /\
      Forall (fun b => 0 <= b /\
                       b + Data_transfer.data_type self
                       <= Data_transfer.reps_per_buf self
                          * Data_transfer.seq_size_B self) offsets.
Proof.
  intros T self q k Hd HS HB Hq Hk Hqk.
  rewrite (fetch_reads_around_the_ring_aux T self q k Hd HS HB Hq
             (proj1 Hk) Hqk).
  set (d := Data_transfer.data_type self) in *.
  set (SS := Data_transfer.seq_size_S self) in *.
  set (B := Data_transfer.seq_size_B self) in *.
  set (R := Data_transfer.reps_per_buf self) in *.
  assert (HR : 0 < R) by lia.
  assert (HM : 0 < R * B) by (rewrite HB; nia).
  exists (map (fun i : nat => (q * B + Z.of_nat i * d) mod (R * B))
              (seq 0 (Z.to_nat (k * SS)))).
  split; [now rewrite map_map|].
  split; [now rewrite length_map, length_seq|].
  split.
  - apply NoDup_map_NoDup_ForallPairs; [|apply seq_NoDup].
    intros i j Hi Hj E. apply in_seq in Hi, Hj.
    apply Nat2Z.inj.
    apply (ring_walk_injective (q * B) d (R * B)); try lia; try assumption.
    + assert (Z.of_nat i < k * SS) by lia. rewrite HB. nia.
    + assert (Z.of_nat j < k * SS) by lia. rewrite HB. nia.
  - apply Forall_forall. intros b Hb. apply in_map_iff in Hb.
    destruct Hb as (i & <- & Hi). rewrite HB.
    replace (q * (SS * d) + Z.of_nat i * d)
      with ((q * SS + Z.of_nat i) * d) by lia.
    replace (R * (SS * d)) with ((R * SS) * d) by lia.
    rewrite Z.mul_mod_distr_r by nia.
    pose proof (Z.mod_pos_bound (q * SS + Z.of_nat i) (R * SS) ltac:(nia)).
    nia.
Qed.

(** The scenario: the 300 offsets of 3 repetitions from repetition 3 on. *)
Lemma fetch_stays_in_the_buffer_witness :
  exists offsets : list Z,
    Data_transfer.get_new_data_via
      (Data_transfer._fetch_data_typed Data_transfer.scenario)
      Data_transfer.scenario 3 (3 * Data_transfer.seq_size_B Data_transfer.scenario)
    = ([], Ok (map (Data_transfer.c_buf_ptr Data_transfer.scenario) offsets)) /\
    List.length offsets
    = Z.to_nat (3 * Data_transfer.seq_size_S Data_transfer.scenario) /\
    NoDup offsets /\
    Forall (fun b => 0 <= b /\
                     b + Data_transfer.data_type Data_transfer.scenario
                     <= Data_transfer.reps_per_buf Data_transfer.scenario
                        * Data_transfer.seq_size_B Data_transfer.scenario)
           offsets.
Proof.
  apply (fetch_stays_in_the_buffer Z Data_transfer.scenario 3 3);
    vm_compute; try reflexivity; intuition discriminate.
Defined.

(** ** Trigger commands of the loop body *)

Lemma written_app (reg : string) (a b : list event) :
  Configure_command.written reg (a ++ b)
  = Configure_command.written reg a ++ Configure_command.written reg b.
Proof. apply flat_map_app. Qed.

Lemma written_report (reg : string) (fr : Card_command.frame) (c : Card_command.t) :
  Configure_command.written reg (Card_command.out (Card_command.report fr c))
  = Configure_command.written reg (Card_command.out c).
Proof.
  rewrite report_out, written_app.
  destruct (Card_command._error_check c);
    [destruct (negb (Card_command._error c =? 0))|];
    unfold Configure_command.written; cbn; now rewrite app_nil_r.
Qed.

(** [_toggle_trigger], in every state and whatever the driver answers.  On
    an object whose flag [trigger_enabled] is unset the comparison raises
    [AttributeError] and nothing else happens.  Otherwise the call returns,
    the flag holds the wanted state, and the driver receives a trigger
    command only when the wanted state differs from the flag, and then
    exactly one: the enable or the disable command. *)
Theorem toggle_trigger_only_on_change :
  forall (fr : Card_command.frame) (drv_err : Z) (wanted : bool)
         (self : Data_process_commander.t),
    let r := Data_process_commander._toggle_trigger fr drv_err wanted self in
    (Data_process_commander.trigger_enabled self = None ->
     r = (self, Raise "AttributeError")) /\
    (forall e : bool,
        Data_process_commander.trigger_enabled self = Some e ->
        snd r = Ok tt /\
        Data_process_commander.trigger_enabled (fst r) = Some wanted /\
        Configure_command.written "SPC_M2CMD"
          (Card_command.out (Data_process_commander.dp (fst r)))
        = Configure_command.written "SPC_M2CMD"
            (Card_command.out (Data_process_commander.dp self))
          ++ (if Bool.eqb wanted e then []
              else [Named (if wanted then "M2CMD_CARD_ENABLETRIGGER"
                           else "M2CMD_CARD_DISABLETRIGGER")]) /\
        (wanted = e -> fst r = self)).
Proof.
  intros fr drv_err wanted self r. subst r. split.
  - intros E. unfold Data_process_commander._toggle_trigger. now rewrite E.
  - intros e E. unfold Data_process_commander._toggle_trigger. rewrite E.
    destruct wanted, e; cbn [Bool.eqb fst snd];
      try (split; [reflexivity|split; [exact E|split;
             [now rewrite app_nil_r|reflexivity]]]);
      unfold Card_command.enable_trigger, Card_command.disable_trigger,
        Card_command.check_card_error; cbn;
      rewrite written_report; cbn; rewrite written_app;
      (split; [reflexivity|split; [reflexivity|split;
         [reflexivity|intros H; discriminate H]]]).
Qed.

(** ** The controller's operations on the card *)

Ltac controller_cases self a :=
  destruct self as [[[card err chk out]|] st lo te th lg];
  destruct a as [fr e1 e2 e3];
  unfold SpectrumInstrumentation.stop_measure,
    SpectrumInstrumentation.pause_measure,
    SpectrumInstrumentation.continue_measure,
    SpectrumInstrumentation.get_status;
  cbn;
  unfold Card_command.disable_trigger, Card_command.enable_trigger,
    Card_command.stop_dma, Card_command.card_stop, Card_command.command,
    Card_command.check_card_error, Card_command.report;
  cbn.

Ltac written_cases :=
  repeat match goal with
         | |- context [negb (?x =? 0)] => destruct (x =? 0)
         end;
  cbn;
  unfold Configure_command.written;
  rewrite ?flat_map_app; cbn; rewrite ?app_nil_r, <- ?app_assoc;
  repeat split; try reflexivity.

(** [stop_measure] touches the card and the thread only from the status
    [running]: from any other status it returns 0, lowers [loop_on], sets the
    status to [idle] and sends the driver nothing. *)
Theorem stop_measure_when_not_running :
  forall (a : SpectrumInstrumentation.answers) (self : SpectrumInstrumentation.t),
    SpectrumInstrumentation.get_status self <> running ->
    let after := fst (SpectrumInstrumentation.stop_measure a self) in
    snd (SpectrumInstrumentation.stop_measure a self) = Ok 0 /\
    SpectrumInstrumentation.cc after = SpectrumInstrumentation.cc self /\
    SpectrumInstrumentation.dp_data_proc_th after
      = SpectrumInstrumentation.dp_data_proc_th self /\
    SpectrumInstrumentation.dp_trigger_enabled after
      = SpectrumInstrumentation.dp_trigger_enabled self /\
    SpectrumInstrumentation.dp_loop_on after = false /\
    SpectrumInstrumentation.get_status after = idle.
Proof.
  intros a self Hst after. unfold after.
  destruct self as [c st lo te th lg].
  unfold SpectrumInstrumentation.stop_measure, SpectrumInstrumentation.get_status in *.
  cbn in *. destruct st; cbn; auto 10. contradiction.
Qed.

Lemma stop_measure_when_not_running_witness :
  SpectrumInstrumentation.cc
    (fst (SpectrumInstrumentation.stop_measure SpectrumInstrumentation.no_error
            SpectrumInstrumentation.error_state))
  = SpectrumInstrumentation.cc SpectrumInstrumentation.error_state.
Proof.
  refine (proj1 (proj2 (stop_measure_when_not_running
                          SpectrumInstrumentation.no_error
                          SpectrumInstrumentation.error_state _))).
  discriminate.
Defined.

(** [pause_measure], in every state and whatever the driver answers.  On
    the controller as the code builds it, without [_card], the call raises
    [AttributeError] at [disable_trigger], its first statement, and changes
    nothing: [loop_on] is not lowered, no thread is joined and the status is
    as it was.  With [_card] assigned the driver receives the command that
    disables the trigger, and nothing else; [loop_on] is lowered; the flag
    [dp.trigger_enabled] keeps its value; when a thread has been started it
    is joined and the status becomes [paused]; when none has, the call ends
    in [AttributeError] after the trigger has been disabled, the status as it
    was. *)
Theorem pause_measure_effects :
  forall (a : SpectrumInstrumentation.answers) (self : SpectrumInstrumentation.t),
    let r := SpectrumInstrumentation.pause_measure a self in
    (SpectrumInstrumentation.cc self = None ->
     r = (self, Raise "AttributeError")) /\
    (forall c : Card_command.t,
        SpectrumInstrumentation.cc self = Some c ->
        exists c' : Card_command.t,
          SpectrumInstrumentation.cc (fst r) = Some c' /\
          Configure_command.written "SPC_M2CMD" (Card_command.out c')
          = Configure_command.written "SPC_M2CMD" (Card_command.out c)
            ++ [Named "M2CMD_CARD_DISABLETRIGGER"] /\
          SpectrumInstrumentation.dp_loop_on (fst r) = false /\
          SpectrumInstrumentation.dp_trigger_enabled (fst r)
            = SpectrumInstrumentation.dp_trigger_enabled self /\
          snd r
            = match SpectrumInstrumentation.dp_data_proc_th self with
              | Some _ => Ok tt
              | None => Raise "AttributeError"
              end /\
          SpectrumInstrumentation.get_status (fst r)
            = match SpectrumInstrumentation.dp_data_proc_th self with
              | Some _ => paused
              | None => SpectrumInstrumentation.get_status self
              end /\
          SpectrumInstrumentation.dp_data_proc_th (fst r)
            = match SpectrumInstrumentation.dp_data_proc_th self with
              | Some _ => Some SpectrumInstrumentation.Joined
              | None => None
              end).
Proof.
  intros a self r. subst r. split.
  - intros E. controller_cases self a; [discriminate E|reflexivity].
  - intros c E. controller_cases self a; [|discriminate E].
    cbn in E. injection E as <-.
    destruct th, chk; cbn; eexists; (split; [reflexivity|]); cbn; written_cases.
Qed.

(** [continue_measure] followed by [stop_measure], in every state and
    whatever the driver answers.  [continue_measure] writes the status
    [running] and raises [loop_on] before it calls the card.  On the
    controller as the code builds it, without [_card], it then raises
    [AttributeError] at [enable_trigger]: no thread is started and the flag
    [dp.trigger_enabled] is not assigned; and the [stop_measure] that follows
    raises [AttributeError] as well, so the status stays [running].  With
    [_card] assigned both return 0; the driver receives, in this order, the
    commands that enable the trigger, disable the trigger, stop the DMA and
    stop the card; the thread started is joined, [loop_on] is lowered and the
    status is [idle]; the flag [dp.trigger_enabled] still holds [True]. *)
Theorem continue_then_stop :
  forall (a a' : SpectrumInstrumentation.answers) (self : SpectrumInstrumentation.t),
    let r1 := SpectrumInstrumentation.continue_measure a self in
    let resumed := fst r1 in
    let r2 := SpectrumInstrumentation.stop_measure a' resumed in
    SpectrumInstrumentation.get_status resumed = running /\
    SpectrumInstrumentation.dp_loop_on resumed = true /\
    (SpectrumInstrumentation.cc self = None ->
     snd r1 = Raise "AttributeError" /\
     SpectrumInstrumentation.dp_trigger_enabled resumed
       = SpectrumInstrumentation.dp_trigger_enabled self /\
     SpectrumInstrumentation.dp_data_proc_th resumed
       = SpectrumInstrumentation.dp_data_proc_th self /\
     snd r2 = Raise "AttributeError" /\
     SpectrumInstrumentation.get_status (fst r2) = running /\
     SpectrumInstrumentation.cc (fst r2) = None) /\
    (forall c : Card_command.t,
        SpectrumInstrumentation.cc self = Some c ->
        snd r1 = Ok 0 /\
        snd r2 = Ok 0 /\
        exists c' : Card_command.t,
          SpectrumInstrumentation.cc (fst r2) = Some c' /\
          Configure_command.written "SPC_M2CMD" (Card_command.out c')
          = Configure_command.written "SPC_M2CMD" (Card_command.out c)
            ++ [Named "M2CMD_CARD_ENABLETRIGGER"; Named "M2CMD_CARD_DISABLETRIGGER";
                Named "M2CMD_DATA_STOPDMA"; Named "M2CMD_CARD_STOP"] /\
          SpectrumInstrumentation.dp_data_proc_th (fst r2)
            = Some SpectrumInstrumentation.Joined /\
          SpectrumInstrumentation.dp_loop_on (fst r2) = false /\
          SpectrumInstrumentation.get_status (fst r2) = idle /\
          SpectrumInstrumentation.dp_trigger_enabled (fst r2) = true).
Proof.
  intros a a' self r1 resumed r2. subst r2 resumed r1.
  destruct a' as [fr' e1' e2' e3'].
  controller_cases self a.
  - split; [reflexivity|]. split; [reflexivity|].
    split; [intros E; discriminate E|].
    intros c E. injection E as <-.
    split; [reflexivity|]. split; [reflexivity|].
    destruct chk; cbn; eexists; (split; [reflexivity|]); cbn; written_cases.
  - split; [reflexivity|]. split; [reflexivity|].
    split; [|intros c E; discriminate E].
    intros _. destruct th; cbn; auto 10.
Qed.

(** ** Configuring the card *)

Lemma written_checked (reg : string) (fr : Card_command.frame)
    (func : Card_command.t -> Card_command.t * result unit) (self : Card_command.t) :
  Configure_command.written reg
    (Card_command.out (fst (Card_command.check_card_error fr func self)))
  = Configure_command.written reg (Card_command.out (fst (func self))).
Proof.
  unfold Card_command.check_card_error.
  destruct (func self) as [s [v|c]]; cbn [fst]; [apply written_report|reflexivity].
Qed.

Lemma error_checked (fr : Card_command.frame)
    (func : Card_command.t -> Card_command.t * result unit) (self : Card_command.t) :
  Card_command._error (fst (Card_command.check_card_error fr func self))
  = Card_command._error (fst (func self)).
Proof.
  unfold Card_command.check_card_error.
  destruct (func self) as [s [v|c]]; cbn [fst]; [|reflexivity].
  now destruct (report_fields fr s) as (_ & -> & _).
Qed.

(** [set_acquistion_mode], for every mode string.  For the five modes
    [STD_SINGLE], [STD_MULTI], [FIFO_SINGLE], [FIFO_GATE] and [FIFO_MULTI] it
    returns, the card mode register is written once, with the constant
    [SPC_REC_] followed by the mode, and [_error] holds the answer to the
    last write.  For [FIFO_AVERAGE] it raises [TypeError] with nothing
    written.  Any other string is ignored: nothing is written and nothing is
    raised. *)
Theorem set_acquistion_mode_dispatch :
  forall (fr : Card_command.frame) (drv_err card : Z) (acq_mode : string)
         (pre_trigs_S post_trigs_S seg_size_S loops HW_avg_num : Z)
         (self : Card_command.t),
    let r := Configure_command.set_acquistion_mode fr drv_err card acq_mode
               pre_trigs_S post_trigs_S seg_size_S loops HW_avg_num self in
    (In acq_mode Configure_command.configurable_modes ->
     snd r = Ok tt /\
     Configure_command.written "SPC_CARDMODE" (Card_command.out (fst r))
     = Configure_command.written "SPC_CARDMODE" (Card_command.out self)
       ++ [Named ("SPC_REC_" ++ acq_mode)%string] /\
     Card_command._error (fst r) = drv_err) /\
    (acq_mode = "FIFO_AVERAGE" -> r = (self, Raise "TypeError")) /\
    (~ In acq_mode Configure_command.configurable_modes ->
     acq_mode <> "FIFO_AVERAGE" -> r = (self, Ok tt)).
Proof.
  intros fr drv_err card acq_mode pre post seg loops avg self r. unfold r.
  split; [|split].
  - intros Hin. cbn in Hin.
    destruct Hin as [<-|[<-|[<-|[<-|[<-|[]]]]]];
      unfold Configure_command.set_acquistion_mode;
      cbn [String.eqb Ascii.eqb Bool.eqb];
      unfold Configure_command._mode_STD_SINGLE, Configure_command._mode_STD_MULTI,
        Configure_command._mode_FIFO_SINGLE, Configure_command._mode_FIFO_GATE,
        Configure_command._mode_FIFO_MULTI;
      (split; [apply check_card_error_value|]);
      (split; [rewrite written_checked|rewrite error_checked; reflexivity]);
      cbn; rewrite !written_app; unfold Configure_command.written; cbn;
      now rewrite ?app_nil_r.
  - intros ->. reflexivity.
  - intros Hin Havg. unfold Configure_command.set_acquistion_mode.
    cbn in Hin.
    repeat match goal with
           | |- context [String.eqb acq_mode ?m] =>
               destruct (String.eqb_spec acq_mode m); [subst; tauto|]
           end.
    reflexivity.
Qed.

Theorem set_trigger_dispatch :
  forall (fr : Card_command.frame) (drv_err card : Z) (trig_mode : string)
         (trig_level_mV : Z) (self : Card_command.t),
    let r := Configure_command.set_trigger fr drv_err card trig_mode
               trig_level_mV self in
    snd r = Ok tt /\
    Configure_command.written "SPC_TRIG_ORMASK" (Card_command.out (fst r))
    = Configure_command.written "SPC_TRIG_ORMASK" (Card_command.out self)
      ++ (if String.eqb trig_mode "EXT" then [Named "SPC_TMASK_EXT0"]
          else if String.eqb trig_mode "SW" then [Named "SPC_TMASK_SOFTWARE"]
          else if String.eqb trig_mode "CH0" then [Named "SPC_TMASK_NONE"]
          else []) /\
    (trig_mode <> "EXT" -> trig_mode <> "SW" -> trig_mode <> "CH0" ->
     fst r = self).
Proof.
  intros fr drv_err card trig_mode level self r. unfold r.
  unfold Configure_command.set_trigger,
    Configure_command._trigger_EXT, Configure_command._trigger_SW,
    Configure_command._trigger_CH0.
  destruct (String.eqb_spec trig_mode "EXT");
    [|destruct (String.eqb_spec trig_mode "SW");
      [|destruct (String.eqb_spec trig_mode "CH0")]];
    (split; [try apply check_card_error_value; reflexivity|]);
    (split; [|try tauto]);
    rewrite ?written_checked; cbn; rewrite ?written_app;
    unfold Configure_command.written; cbn; now rewrite ?app_nil_r.
Qed.

(** A trace of writes, read per register. *)
Ltac written_trace :=
  cbn [fst snd]; unfold Configure_command.write_error, Configure_command.write,
    Card_command.set_error, Card_command.emit; cbn [Card_command.out Card_command._error];
  rewrite ?written_app; unfold Configure_command.written; cbn;
  rewrite ?app_nil_r; try reflexivity.

(** [set_analog_input_conditions] returns exactly when the termination is
    one of ['1Mohm'], ['50Ohm'] and the coupling one of ['DC'], ['AC'].
    Otherwise it raises [KeyError], and the card is left half configured:
    range and offset have been written, the coupling has not, and [_error]
    keeps its old value. *)
Theorem analog_input_key_errors :
  forall (fr : Card_command.frame) (drv_err card : Z)
         (ai : Configure_command.analog_input) (self : Card_command.t),
    let r := Configure_command.set_analog_input_conditions fr drv_err card ai self in
    let known := In (Configure_command._ai_term ai) ["1Mohm"; "50Ohm"]
                 /\ In (Configure_command._ai_coupling ai) ["DC"; "AC"] in
    (snd r = Ok tt <-> known) /\
    (~ known ->
     snd r = Raise "KeyError" /\
     Configure_command.written "SPC_AMP0" (Card_command.out (fst r))
     = Configure_command.written "SPC_AMP0" (Card_command.out self)
       ++ [Num (Configure_command._ai_range_mV ai)] /\
     Configure_command.written "SPC_OFFS0" (Card_command.out (fst r))
     = Configure_command.written "SPC_OFFS0" (Card_command.out self)
       ++ [Num (Configure_command._ai_offset_mV ai)] /\
     Configure_command.written "SPC_ACDC0" (Card_command.out (fst r))
     = Configure_command.written "SPC_ACDC0" (Card_command.out self) /\
     Card_command._error (fst r) = Card_command._error self).
Proof.
  intros fr drv_err card [rg off term coup] self r known.
  subst r known. cbn [Configure_command._ai_term Configure_command._ai_coupling
                      Configure_command._ai_range_mV Configure_command._ai_offset_mV].
  unfold Configure_command.set_analog_input_conditions.
  rewrite check_card_error_value, !written_checked, error_checked.
  cbn [Configure_command._ai_term Configure_command._ai_coupling
       Configure_command._ai_range_mV Configure_command._ai_offset_mV
       Configure_command.getitem Configure_command.ai_term_dict
       Configure_command.ai_coupling_dict In].
  destruct (String.eqb_spec "1Mohm" term) as [T1|T1];
    [|destruct (String.eqb_spec "50Ohm" term) as [T2|T2]];
    (destruct (String.eqb_spec "DC" coup) as [C1|C1];
      [|destruct (String.eqb_spec "AC" coup) as [C2|C2]]);
    cbn [fst snd];
    (split; [split; [intros E; try discriminate E; tauto
                    |intros K; try reflexivity; exfalso; tauto]|]);
    (intros K; try (exfalso; tauto));
    (split; [reflexivity|]); repeat split; written_trace.
Qed.

(** Writing the analog input and reading it back.  When
    [set_analog_input_conditions] has returned and the driver answers the four
    queries of [_check_csr_ai] with the numbers last written to the registers,
    [_check_csr_ai] returns and [csr] holds the configured range, offset,
    termination and coupling: the two pairs of dictionaries are inverse to
    each other. *)
Theorem analog_input_round_trip :
  forall (fr fr' : Card_command.frame) (drv_err card : Z)
         (ai : Configure_command.analog_input) (self self' : Card_command.t)
         (regs : Configure_register_checker.ai_registers)
         (c : Configure_register_checker.csr),
    let r := Configure_command.set_analog_input_conditions fr drv_err card ai self in
    snd r = Ok tt ->
    Configure_register_checker.read_back (Card_command.out (fst r))
      (Configure_register_checker.ai_err regs) = Some regs ->
    let q := Configure_register_checker._check_csr_ai fr' regs self' c in
    snd q = Ok tt /\
    snd (fst q) =
      Configure_register_checker.mkcsr
        (Some (Configure_command._ai_range_mV ai))
        (Some (Configure_command._ai_offset_mV ai))
        (Some (Configure_command._ai_term ai))
        (Some (Configure_command._ai_coupling ai)).
Proof.
  intros fr fr' drv_err card [rg off term coup] self self' regs c r.
  subst r. unfold Configure_command.set_analog_input_conditions.
  rewrite check_card_error_value.
  unfold Configure_register_checker.read_back,
    Configure_register_checker.last_number.
  rewrite !written_checked.
  cbn [Configure_command._ai_term Configure_command._ai_coupling
       Configure_command._ai_range_mV Configure_command._ai_offset_mV
       Configure_command.getitem Configure_command.ai_term_dict
       Configure_command.ai_coupling_dict].
  destruct (String.eqb_spec "1Mohm" term) as [T1|T1];
    [|destruct (String.eqb_spec "50Ohm" term) as [T2|T2]];
    (destruct (String.eqb_spec "DC" coup) as [C1|C1];
      [|destruct (String.eqb_spec "AC" coup) as [C2|C2]]);
    cbn [fst snd]; intros E; try discriminate E; clear E;
    unfold Configure_command.write_error, Configure_command.write,
      Card_command.set_error, Card_command.emit;
    cbn [Card_command.out];
    rewrite !written_app; unfold Configure_command.written;
    cbn [flat_map String.eqb Ascii.eqb Bool.eqb app];
    rewrite ?app_nil_r, !rev_app_distr; cbn [rev app];
    intros R; injection R as <-; subst; split; reflexivity.
Qed.

Lemma analog_input_round_trip_witness :
  snd (fst (Configure_register_checker._check_csr_ai
              Configure_register_checker.scenario_frame
              Configure_register_checker.scenario_registers
              Configure_register_checker.scenario_checker
              Configure_register_checker.empty_csr))
  = Configure_register_checker.mkcsr (Some 2000) (Some 0) (Some "50Ohm") (Some "DC").
Proof.
  refine (proj2 (analog_input_round_trip Configure_command.scenario_frame
                   Configure_register_checker.scenario_frame 0 0
                   Configure_command.scenario_ai Configure_command.scenario_card
                   Configure_register_checker.scenario_checker
                   Configure_register_checker.scenario_registers
                   Configure_register_checker.empty_csr _ _));
    vm_compute; reflexivity.
Defined.

(** ** The page-aligned buffer *)

(** [pvAllocMemPageAligned], wherever the allocator puts the larger buffer:
    a negative size is refused with [ValueError]; for every other size the
    array returned has the size asked for, starts at the first multiple of
    4096 that is not below the allocated address, and ends inside the
    [qwBytes + 4095] bytes allocated. *)
Theorem pvAllocMemPageAligned_aligned :
  forall (address qwBytes : Z),
    (qwBytes < 0 ->
     Configure_data_transfer.pvAllocMemPageAligned address qwBytes
     = Raise "ValueError") /\
    (0 <= qwBytes ->
     exists a : Z,
       Configure_data_transfer.pvAllocMemPageAligned address qwBytes
       = Ok (a, qwBytes) /\
       a mod 4096 = 0 /\
       address <= a < address + 4096 /\
       a + qwBytes <= address + (qwBytes + 4095)).
Proof.
  intros address qwBytes.
  unfold Configure_data_transfer.pvAllocMemPageAligned.
  change (4096 - 1) with (Z.ones 12).
  rewrite Z.land_ones by lia. change (2 ^ 12) with 4096.
  pose proof (Z.mod_pos_bound address 4096 ltac:(lia)) as Hm.
  pose proof (Z.div_mod address 4096 ltac:(lia)) as Hd.
  split.
  - intros Hneg.
    destruct (qwBytes * 1 + Z.ones 12 <? 0); [reflexivity|].
    destruct (qwBytes <? 0) eqn:E; [reflexivity|lia].
  - intros Hpos. change (Z.ones 12) with 4095.
    destruct (qwBytes * 1 + 4095 <? 0) eqn:E1; [lia|].
    destruct (qwBytes <? 0) eqn:E2; [lia|].
    destruct (address mod 4096 =? 0) eqn:E3; cbn [negb].
    + apply Z.eqb_eq in E3.
      destruct (qwBytes * 1 + 4095 <? 0 + qwBytes) eqn:E4; [lia|].
      exists (address + 0). split; [reflexivity|].
      rewrite Z.add_0_r. repeat split; lia.
    + apply Z.eqb_neq in E3.
      destruct (qwBytes * 1 + 4095 <? 4096 - address mod 4096 + qwBytes) eqn:E4; [lia|].
      exists (address + (4096 - address mod 4096)). split; [reflexivity|].
      repeat split; try lia.
      replace (address + (4096 - address mod 4096))
        with ((address / 4096 + 1) * 4096) by lia.
      apply Z.mod_mul. lia.
Qed.

(** ** Waiting for triggers and for data *)

Lemma polls_app (reg : string) (a b : list event) :
  Card_process.polls reg (a ++ b)
  = (Card_process.polls reg a + Card_process.polls reg b)%nat.
Proof. unfold Card_process.polls. now rewrite filter_app, length_app. Qed.

Lemma polls_report (reg : string) (fr : Card_command.frame) (c : Card_command.t) :
  Card_process.polls reg (Card_command.out (Card_command.report fr c))
  = Card_process.polls reg (Card_command.out c).
Proof.
  rewrite report_out, polls_app.
  destruct (Card_command._error_check c);
    [destruct (negb (Card_command._error c =? 0))|];
    unfold Card_process.polls; cbn; lia.
Qed.

Lemma polls_query (reg : string) (a : Card_process.answer) (self : Card_process.t) :
  Card_process.polls reg (Card_command.out (Card_process.query reg a self))
  = S (Card_process.polls reg (Card_command.out (Card_process.base self))).
Proof.
  unfold Card_process.query. rewrite polls_report.
  unfold Card_command.set_error, Card_command.emit. cbn [Card_command.out].
  rewrite polls_app. unfold Card_process.polls at 2. cbn [filter].
  rewrite String.eqb_refl. cbn. lia.
Qed.

Lemma poll_trig_counter_changed (prev : option Z) (curr : Z)
    (answers : list Card_process.answer) (self : Card_process.t) :
  Some curr <> prev ->
  Card_process.poll_trig_counter prev curr answers self
  = (self, Card_process.Returned (Ok curr)).
Proof.
  intros N. destruct answers; destruct prev as [p|]; cbn; try reflexivity;
    (destruct (Z.eqb_spec curr p) as [E|E]; [exfalso; apply N; now rewrite E|reflexivity]).
Qed.

Lemma poll_trig_counter_first_change (prev : option Z)
    (same : list Card_process.answer) (a : Card_process.answer)
    (later : list Card_process.answer) :
  Forall (fun x => Some (Card_process.a_value x) = prev) same ->
  Some (Card_process.a_value a) <> prev ->
  forall (curr : Z) (self : Card_process.t),
    Some curr = prev ->
    let r := Card_process.poll_trig_counter prev curr (same ++ a :: later) self in
    snd r = Card_process.Returned (Ok (Card_process.a_value a)) /\
    Card_process.trig_counter (fst r) = Some (Card_process.a_value a) /\
    Card_process.polls "SPC_TRIGGERCOUNTER"
      (Card_command.out (Card_process.base (fst r)))
    = (Card_process.polls "SPC_TRIGGERCOUNTER"
         (Card_command.out (Card_process.base self)) + S (List.length same))%nat.
Proof.
  intros Hsame Ha. induction Hsame as [|x same Hx Hsame IH]; intros curr self Hc.
  - cbn [app List.length]. destruct prev as [p|]; [|discriminate Hc].
    injection Hc as ->. cbn [Card_process.poll_trig_counter].
    rewrite Z.eqb_refl. unfold Card_process.get_trig_counter.
    rewrite poll_trig_counter_changed by exact Ha.
    cbn [fst snd Card_process.trig_counter Card_process.base].
    rewrite polls_query. repeat split; lia.
  - destruct prev as [p|]; [|discriminate Hc].
    injection Hc as ->. cbn [app Card_process.poll_trig_counter].
    rewrite Z.eqb_refl. unfold Card_process.get_trig_counter.
    specialize (IH (Card_process.a_value x)
                  (Card_process.mk
                     (Card_process.query "SPC_TRIGGERCOUNTER" x self)
                     (Card_process.seq_size_B self)
                     (Card_process.avail_user_len_B self)
                     (Card_process.avail_user_reps self)
                     (Some (Card_process.a_value x))) Hx).
    cbv zeta in IH. destruct IH as (R1 & R2 & R3).
    cbn [Card_process.base] in R3. rewrite polls_query in R3.
    cbv zeta. repeat split; [exact R1|exact R2|].
    rewrite R3. cbn [List.length]. lia.
Qed.

Lemma poll_trig_counter_all_same (prev : option Z)
    (same : list Card_process.answer) :
  Forall (fun x => Some (Card_process.a_value x) = prev) same ->
  forall (curr : Z) (self : Card_process.t),
    Some curr = prev ->
    snd (Card_process.poll_trig_counter prev curr same self) = Card_process.Waiting.
Proof.
  intros Hsame. induction Hsame as [|x same Hx Hsame IH]; intros curr self Hc;
    (destruct prev as [p|]; [|discriminate Hc]); injection Hc as ->;
    cbn [Card_process.poll_trig_counter]; rewrite Z.eqb_refl; [reflexivity|].
  unfold Card_process.get_trig_counter. now apply IH.
Qed.

(** [_wait_new_trigger(True)] returns the first count that differs from the
    counter stored before the wait, queries the driver once for each answer up
    to that one, and leaves the count in [trig_counter]; while the answers
    repeat the stored counter it does not return.  The placeholder that
    [init_dp_params] stores differs from every count, so the first wait after
    it returns the first answer, whatever the count. *)
Theorem wait_new_trigger_returns_first_change :
  forall (same : list Card_process.answer) (a : Card_process.answer)
         (later : list Card_process.answer) (self : Card_process.t),
    Forall (fun x => Some (Card_process.a_value x) = Card_process.trig_counter self)
           same ->
    Some (Card_process.a_value a) <> Card_process.trig_counter self ->
    let r := Card_process._wait_new_trigger true (same ++ a :: later) self in
    snd (Card_process._wait_new_trigger true same self) = Card_process.Waiting /\
    snd r = Card_process.Returned (Ok (Some (Card_process.a_value a))) /\
    Card_process.trig_counter (fst r) = Some (Card_process.a_value a) /\
    Card_process.polls "SPC_TRIGGERCOUNTER"
      (Card_command.out (Card_process.base (fst r)))
    = (Card_process.polls "SPC_TRIGGERCOUNTER"
         (Card_command.out (Card_process.base self)) + S (List.length same))%nat.
Proof.
  intros same a later self Hsame Ha r. subst r.
  unfold Card_process._wait_new_trigger.
  set (self1 := Card_process.say "waiting for triggers" self).
  assert (P1 : Card_process.polls "SPC_TRIGGERCOUNTER"
                 (Card_command.out (Card_process.base self1))
               = Card_process.polls "SPC_TRIGGERCOUNTER"
                   (Card_command.out (Card_process.base self))).
  { unfold self1, Card_process.say, Card_command.emit.
    cbn [Card_process.base Card_command.out]. rewrite polls_app.
    unfold Card_process.polls at 2. cbn. lia. }
  change (Card_process.trig_counter self1) with (Card_process.trig_counter self).
  destruct Hsame as [|x same Hx Hsame].
  - split; [reflexivity|]. cbn [app List.length].
    unfold Card_process.get_trig_counter.
    rewrite poll_trig_counter_changed by exact Ha.
    unfold Card_process.say, Card_command.emit.
    cbn [fst snd Card_process.trig_counter Card_process.base Card_command.out].
    rewrite polls_app, polls_query, P1.
    unfold Card_process.polls at 2. cbn. repeat split; lia.
  - cbn [app List.length]. unfold Card_process.get_trig_counter.
    set (self2 := Card_process.mk _ _ _ _ _).
    split.
    + pose proof (poll_trig_counter_all_same _ same Hsame
                    (Card_process.a_value x) self2 Hx) as W.
      destruct (Card_process.poll_trig_counter _ _ same self2) as [s w].
      cbn [snd] in W. subst w. reflexivity.
    + pose proof (poll_trig_counter_first_change _ same a later Hsame Ha
                    (Card_process.a_value x) self2 Hx) as R.
      cbv zeta in R.
      destruct (Card_process.poll_trig_counter _ _ (same ++ a :: later) self2)
        as [s w].
      cbn [fst snd] in R. destruct R as (-> & R2 & R3).
      unfold Card_process.say, Card_command.emit.
      cbn [fst snd Card_process.trig_counter Card_process.base Card_command.out].
      rewrite polls_app, R3. unfold self2. cbn [Card_process.base].
      rewrite polls_query, P1.
      unfold Card_process.polls at 2. cbn. repeat split; [exact R2|lia].
Qed.

Lemma wait_new_trigger_returns_first_change_witness :
  snd (Card_process._wait_new_trigger true
         [Card_process.scenario_answer 5; Card_process.scenario_answer 5;
          Card_process.scenario_answer 7]
         Card_process.scenario_state)
  = Card_process.Returned (Ok (Some 7)).
Proof.
  refine (proj1 (proj2 (wait_new_trigger_returns_first_change
                          [Card_process.scenario_answer 5;
                           Card_process.scenario_answer 5]
                          (Card_process.scenario_answer 7) []
                          Card_process.scenario_state _ _))).
  - repeat constructor.
  - discriminate.
Defined.

Lemma get_avail_user_reps_value (b : Z) (a : Card_process.answer)
    (self : Card_process.t) :
  Card_process.seq_size_B self = Some b -> b <> 0 ->
  Card_process.get_avail_user_reps a self
  = (Card_process.mk (Card_process.query "SPC_DATA_AVAIL_USER_LEN" a self)
       (Some b) (Card_process.a_value a) (Card_process.a_value a / b)
       (Card_process.trig_counter self),
     Ok (Card_process.a_value a / b)).
Proof.
  intros Hb Hnz. unfold Card_process.get_avail_user_reps, Card_process.get_avail_user_len_B.
  cbn [Card_process.seq_size_B Card_process.base Card_process.avail_user_len_B
       Card_process.trig_counter].
  rewrite Hb. apply Z.eqb_neq in Hnz. now rewrite Hnz.
Qed.

(** [_wait_new_avail_reps] over a segment size [b > 0]: while the driver
    reports fewer than [b] bytes the wait polls on; it returns at the first
    answer of at least [b] bytes, with the number of whole segments in it,
    which is not 0, having queried the driver once for each answer up to that
    one.  (Lengths below 2^53, where the quotient in binary64 has the floor of
    the exact one.) *)
Theorem wait_new_avail_reps_returns_first_segment :
  forall (b : Z) (empty : list Card_process.answer) (a : Card_process.answer)
         (later : list Card_process.answer) (self : Card_process.t),
    Card_process.seq_size_B self = Some b ->
    0 < b ->
    Forall (fun x => 0 <= Card_process.a_value x < b) empty ->
    b <= Card_process.a_value a < 2 ^ 53 ->
    let r := Card_process._wait_new_avail_reps (empty ++ a :: later) self in
    let reps := Card_process.a_value a / b in
    snd (Card_process._wait_new_avail_reps empty self) = Card_process.Waiting /\
    snd r = Card_process.Returned (Ok reps) /\
    0 < reps /\
    reps * b <= Card_process.a_value a < (reps + 1) * b /\
    Card_process.avail_user_reps (fst r) = reps /\
    Card_process.avail_user_len_B (fst r) = Card_process.a_value a /\
    Card_process.polls "SPC_DATA_AVAIL_USER_LEN"
      (Card_command.out (Card_process.base (fst r)))
    = (Card_process.polls "SPC_DATA_AVAIL_USER_LEN"
         (Card_command.out (Card_process.base self)) + S (List.length empty))%nat.
Proof.
  intros b empty a later self Hb Hpos Hempty Ha r reps. subst r reps.
  assert (Hreps : 0 < Card_process.a_value a / b)
    by (apply Z.div_str_pos; lia).
  assert (Hbounds : Card_process.a_value a / b * b <= Card_process.a_value a
                    < (Card_process.a_value a / b + 1) * b).
  { pose proof (Z.div_mod (Card_process.a_value a) b ltac:(lia)).
    pose proof (Z.mod_pos_bound (Card_process.a_value a) b Hpos). nia. }
  revert self Hb. induction Hempty as [|x empty Hx Hempty IH]; intros self Hb.
  - cbn [app List.length Card_process._wait_new_avail_reps].
    rewrite (get_avail_user_reps_value b) by (trivial; lia).
    destruct (Z.eqb_spec (Card_process.a_value a / b) 0) as [E|E]; [lia|].
    cbn [fst snd Card_process.avail_user_reps Card_process.avail_user_len_B
         Card_process.base].
    rewrite polls_query. repeat split; try lia.
  - cbn [app List.length Card_process._wait_new_avail_reps].
    rewrite (get_avail_user_reps_value b) by (trivial; lia).
    rewrite (Z.div_small _ _ Hx). cbn [Z.eqb].
    set (self1 := Card_process.mk _ _ _ _ _).
    specialize (IH self1 eq_refl).
    destruct IH as (W & R1 & _ & _ & R2 & R3 & R4).
    assert (P : Card_process.polls "SPC_DATA_AVAIL_USER_LEN"
                  (Card_command.out (Card_process.base self1))
                = S (Card_process.polls "SPC_DATA_AVAIL_USER_LEN"
                       (Card_command.out (Card_process.base self))))
      by apply polls_query.
    rewrite P in R4.
    cbn [List.length]. repeat split; try assumption; lia.
Qed.

Lemma wait_new_avail_reps_returns_first_segment_witness :
  snd (Card_process._wait_new_avail_reps
         [Card_process.scenario_answer 0; Card_process.scenario_answer 100;
          Card_process.scenario_answer 500]
         Card_process.scenario_state)
  = Card_process.Returned (Ok 2).
Proof.
  refine (proj1 (proj2 (wait_new_avail_reps_returns_first_segment 200
                          [Card_process.scenario_answer 0;
                           Card_process.scenario_answer 100]
                          (Card_process.scenario_answer 500) []
                          Card_process.scenario_state eq_refl _ _ _))).
  - reflexivity.
  - repeat first [apply Forall_cons | apply Forall_nil]; cbn; lia.
  - cbn. split; [lia|reflexivity].
Defined.

(** [get_avail_user_reps] needs a [seq_size_B] on the object, which
    [Data_process_command] never assigns: without it the wait ends at its
    first poll in [AttributeError], and over a segment size of 0 in
    [ZeroDivisionError]; in both cases after the driver was queried and
    [avail_user_len_B] updated, and with [avail_user_reps] untouched. *)
Theorem wait_new_avail_reps_needs_segment_size :
  forall (a : Card_process.answer) (later : list Card_process.answer)
         (self : Card_process.t),
    let r := Card_process._wait_new_avail_reps (a :: later) self in
    (Card_process.seq_size_B self = None ->
     snd r = Card_process.Returned (Raise "AttributeError")) /\
    (Card_process.seq_size_B self = Some 0 ->
     snd r = Card_process.Returned (Raise "ZeroDivisionError")) /\
    (Card_process.seq_size_B self = None \/ Card_process.seq_size_B self = Some 0 ->
     Card_process.avail_user_len_B (fst r) = Card_process.a_value a /\
     Card_process.avail_user_reps (fst r) = Card_process.avail_user_reps self /\
     Card_process.polls "SPC_DATA_AVAIL_USER_LEN"
       (Card_command.out (Card_process.base (fst r)))
     = S (Card_process.polls "SPC_DATA_AVAIL_USER_LEN"
            (Card_command.out (Card_process.base self)))).
Proof.
  intros a later self r. subst r.
  cbn [Card_process._wait_new_avail_reps].
  unfold Card_process.get_avail_user_reps, Card_process.get_avail_user_len_B.
  cbn [Card_process.seq_size_B].
  split; [|split]; intros E; try destruct E as [E|E]; rewrite E;
    cbn [Z.eqb fst snd Card_process.avail_user_len_B Card_process.avail_user_reps
         Card_process.base]; try reflexivity;
    (split; [reflexivity|split; [reflexivity|apply polls_query]]).
Qed.
